(** * dm-data-conditional-masker: the conditional masking engine of [main.py]

    A shallow embedding of [ConditionalMasker] (load_config, mask_data,
    apply_masking, process_data) and of [main], with the properties the
    specification states about them.

    Modelling conventions.
    - JSON values are the inductive [json]; a Python [dict] loaded from JSON
      is an association list with string keys, in insertion order.  JSON
      numbers with a fractional part are outside the model: the engine never
      inspects a number itself, it only carries it around.  So is nesting
      deeper than the interpreter's recursion limit.
    - Python objects live in a store ([heap]) and are named by their
      location.  A container inside a container is a reference ([VRef]) to
      its own object, so that [record.copy()], which is shallow, shares the
      nested lists and dicts of a record with its copy.
    - Exceptions, the log, the Faker generator and the files are explicit
      state: a computation is a function from a [world] to an outcome and a
      new world.  A raised exception keeps the world reached so far, as in
      Python.  The outcome of code that runs [eval] is a [flow]: besides
      returning or raising an exception derived from [Exception], it may
      leave through an exception that is not ([SystemExit]), which no
      handler of [main.py] catches, or not return at all.
    - The two library functions the engine calls but does not define are
      parameters of the development.  The Faker providers ([fake]) return a
      string or raise inside Faker.  The evaluator behind [eval]
      ([py_eval]) is given the text and the location of the mapping that
      serves as its locals, and may do to the world whatever an expression
      can do: assign to a name of the mapping, change an object it reaches,
      write a file, leave the interpreter, or never return.  What a
      property needs of the conditions is a hypothesis of its theorem.
    - The world holds what a run is about: the objects built from the
      input, the generator, the log and the files.  The interpreter is not
      in it: the engine's own variables ([data], [masked_data], the rule
      set being iterated), its code and the modules it calls are out of
      reach of the evaluator of the model.  A condition that gets at them
      through the interpreter's frames or modules is outside the model, and
      so is one that binds a name of the record to something that is not a
      JSON value. *)

From Stdlib Require Import String Ascii List ZArith Bool Arith Lia.
Import ListNotations.
Open Scope string_scope.
Open Scope list_scope.
Set Warnings "-register-all".

(** ** JSON values and Python's view of them *)

Definition loc := nat.

Inductive json : Type :=
| VNull
| VBool (b : bool)
| VInt (z : Z)
| VStr (s : string)
| VList (xs : list json)
| VDict (kvs : list (string * json))
| VRef (l : loc).

Definition pydict := list (string * json).

(** [d.get(k)]: the value bound to the first occurrence of [k]. *)
Fixpoint dict_get (k : string) (kvs : pydict) : option json :=
  match kvs with
  | [] => None
  | (k', v) :: rest => if String.eqb k k' then Some v else dict_get k rest
  end.

(** [k in d] for a string key. *)
Definition dict_has (k : string) (kvs : pydict) : bool :=
  match dict_get k kvs with Some _ => true | None => false end.

(** [d[k] = v]: an existing key keeps its position, a new key goes last. *)
Fixpoint dict_set (k : string) (v : json) (kvs : pydict) : pydict :=
  match kvs with
  | [] => [(k, v)]
  | (k', v') :: rest =>
      if String.eqb k k' then (k', v) :: rest else (k', v') :: dict_set k v rest
  end.


(** ** Exceptions *)

(** The classes derived from [Exception]: those the program names or
    meets in its own steps, and any other by its name and a class it
    derives from ([ZeroDivisionError] from [Exception], [PermissionError]
    from [OSError], [UnboundLocalError] from [NameError]). *)
Inductive exn_class : Type :=
| Exception
| NameError
| TypeError
| ValueError
| JSONDecodeError
| UnicodeDecodeError
| KeyError
| IndexError
| AttributeError
| SyntaxError
| RecursionError
| OSError
| FileNotFoundError
| Derived (name : string) (base : exn_class).

Fixpoint exn_class_eqb (a b : exn_class) : bool :=
  match a, b with
  | Exception, Exception | NameError, NameError | TypeError, TypeError
  | ValueError, ValueError | JSONDecodeError, JSONDecodeError
  | UnicodeDecodeError, UnicodeDecodeError
  | KeyError, KeyError | IndexError, IndexError
  | AttributeError, AttributeError | SyntaxError, SyntaxError
  | RecursionError, RecursionError
  | OSError, OSError | FileNotFoundError, FileNotFoundError => true
  | Derived n a', Derived m b' => String.eqb n m && exn_class_eqb a' b'
  | _, _ => false
  end.

(** The part of Python's class hierarchy the handlers rely on:
    [json.JSONDecodeError] and [UnicodeDecodeError] derive from
    [ValueError], [FileNotFoundError] from [OSError], and every class here
    from [Exception]. *)
Fixpoint issubclass (c parent : exn_class) {struct c} : bool :=
  exn_class_eqb c parent
  || match c with
     | Exception => false
     | JSONDecodeError | UnicodeDecodeError =>
         exn_class_eqb ValueError parent || exn_class_eqb Exception parent
     | FileNotFoundError =>
         exn_class_eqb OSError parent || exn_class_eqb Exception parent
     | Derived _ base => issubclass base parent
     | _ => exn_class_eqb Exception parent
     end.

Record exn : Type := mkExn { exn_cls : exn_class; exn_msg : string }.

Definition isinstance (e : exn) (c : exn_class) : bool :=
  issubclass (exn_cls e) c.

Inductive result (A : Type) : Type :=
| Ok (a : A)
| Raise (e : exn).
Arguments Ok {A} a.
Arguments Raise {A} e.

(** The exceptions that do not derive from [Exception]: [SystemExit] with
    the status the process ends with (0 to 255), and the others by name. *)
Inductive escape : Type :=
| SystemExit (status : Z)
| BaseException (name : string).

(** What running code comes to: it returns or raises an [Exception]
    ([Normal]), it leaves through an exception no [except Exception]
    catches, or it does not return. *)
Inductive flow (A : Type) : Type :=
| Normal (r : result A)
| Escapes (b : escape)
| Diverges.
Arguments Normal {A} r.
Arguments Escapes {A} b.
Arguments Diverges {A}.

(** A result is a flow; an outcome [(Ok a, w)] or [(Raise e, w)] written
    where a flow is expected is that normal flow. *)
Coercion Normal : result >-> flow.
Arguments pair {A B} & a b.

(** ** Operations of Python on JSON values *)

(** The object a value denotes: a reference stands for the object at its
    location. *)
Definition get_obj (h : list json) (v : json) : json :=
  match v with
  | VRef l => nth l h VNull
  | _ => v
  end.

(** [type(o).__name__] *)
Definition type_name (o : json) : string :=
  match o with
  | VNull => "NoneType"
  | VBool _ => "bool"
  | VInt _ => "int"
  | VStr _ => "str"
  | VList _ => "list"
  | VDict _ => "dict"
  | VRef _ => "object"
  end.

Definition Z_of_bool (b : bool) : Z := if b then 1%Z else 0%Z.

(** [a == b] on values without references.  [bool] is a subclass of
    [int]; lists compare element by element; dicts compare as mappings,
    whatever the insertion order. *)
Fixpoint py_eq (a b : json) {struct a} : bool :=
  match a, b with
  | VNull, VNull => true
  | VBool x, VBool y => Bool.eqb x y
  | VBool x, VInt y => Z.eqb (Z_of_bool x) y
  | VInt x, VBool y => Z.eqb x (Z_of_bool y)
  | VInt x, VInt y => Z.eqb x y
  | VStr x, VStr y => String.eqb x y
  | VList xs, VList ys =>
      (fix all2 (xs ys : list json) {struct xs} : bool :=
         match xs, ys with
         | [], [] => true
         | x :: xs', y :: ys' => py_eq x y && all2 xs' ys'
         | _, _ => false
         end) xs ys
  | VDict kvs, VDict kvs' =>
      Nat.eqb (length kvs) (length kvs') &&
      (fix every (kvs : pydict) {struct kvs} : bool :=
         match kvs with
         | [] => true
         | (k, v) :: rest =>
             match dict_get k kvs' with
             | Some v' => py_eq v v'
             | None => false
             end && every rest
         end) kvs
  | VRef x, VRef y => Nat.eqb x y
  | _, _ => false
  end.

(** [a == b] where [a] is a value without references (a value of the rule
    set) and [b] a value of the store, whose containers are followed
    through the store as far as [a] goes. *)
Fixpoint eq_deep (h : list json) (a b : json) {struct a} : bool :=
  match a, get_obj h b with
  | VList xs, VList ys =>
      (fix all2 (xs ys : list json) {struct xs} : bool :=
         match xs, ys with
         | [], [] => true
         | x :: xs', y :: ys' => eq_deep h x y && all2 xs' ys'
         | _, _ => false
         end) xs ys
  | VDict kvs, VDict kvs' =>
      Nat.eqb (length kvs) (length kvs') &&
      (fix every (kvs : pydict) {struct kvs} : bool :=
         match kvs with
         | [] => true
         | (k, v) :: rest =>
             match dict_get k kvs' with
             | Some v' => eq_deep h v v'
             | None => false
             end && every rest
         end) kvs
  | VList _, _ | VDict _, _ => false
  | _, o => py_eq a o
  end.

(** The value of the store behind [v] as a tree, as [json.dump] walks it:
    [None] when a container is met again below itself ([seen] holds the
    containers being walked).  A walk that meets no container twice passes
    through fewer references than the store has objects, which is the
    fuel given. *)
Fixpoint resolve (fuel : nat) (h : list json) (seen : list loc) (v : json)
  {struct fuel} : option json :=
  match fuel with
  | O => None
  | S fuel' =>
      (fix tree (seen : list loc) (v : json) {struct v} : option json :=
         match v with
         | VRef l =>
             if existsb (Nat.eqb l) seen then None
             else
               match nth_error h l with
               | Some o => resolve fuel' h (l :: seen) o
               | None => None
               end
         | VList xs =>
             option_map VList
               ((fix each (xs : list json) {struct xs} : option (list json) :=
                   match xs with
                   | [] => Some []
                   | x :: rest =>
                       match tree seen x, each rest with
                       | Some t, Some ts => Some (t :: ts)
                       | _, _ => None
                       end
                   end) xs)
         | VDict kvs =>
             option_map VDict
               ((fix each (kvs : pydict) {struct kvs} : option pydict :=
                   match kvs with
                   | [] => Some []
                   | (k, x) :: rest =>
                       match tree seen x, each rest with
                       | Some t, Some ts => Some ((k, t) :: ts)
                       | _, _ => None
                       end
                   end) kvs)
         | _ => Some v
         end) seen v
  end.

(** The tree behind each object of a list of objects. *)
Fixpoint resolve_all (h : list json) (ls : list loc) : option (list json) :=
  match ls with
  | [] => Some []
  | l :: rest =>
      match resolve (S (S (length h))) h [] (VRef l), resolve_all h rest with
      | Some t, Some ts => Some (t :: ts)
      | _, _ => None
      end
  end.

(** The objects of a tree, laid out in the store [h]: every container gets
    a location of its own, after those of its elements, and stands in its
    parent as a reference.  The result is the value that stands for the
    tree, and the store with the new objects. *)
Fixpoint build (o : json) (h : list json) {struct o} : json * list json :=
  match o with
  | VList xs =>
      let (xs', h') :=
        (fix each (xs : list json) (h : list json) {struct xs}
           : list json * list json :=
           match xs with
           | [] => ([], h)
           | x :: rest =>
               let (x', h1) := build x h in
               let (rest', h2) := each rest h1 in
               (x' :: rest', h2)
           end) xs h in
      (VRef (length h'), h' ++ [VList xs'])
  | VDict kvs =>
      let (kvs', h') :=
        (fix each (kvs : pydict) (h : list json) {struct kvs}
           : pydict * list json :=
           match kvs with
           | [] => ([], h)
           | (k, x) :: rest =>
               let (x', h1) := build x h in
               let (rest', h2) := each rest h1 in
               ((k, x') :: rest', h2)
           end) kvs h in
      (VRef (length h'), h' ++ [VDict kvs'])
  | _ => (o, h)
  end.

Definition no_copy (o : json) : exn :=
  mkExn AttributeError
    ("'" ++ type_name o ++ "' object has no attribute 'copy'").

(** [o.copy()]: dicts and lists have the method, the other JSON types raise
    [AttributeError].  The copy is shallow: it holds the references the
    original holds. *)
Definition py_copy (o : json) : result json :=
  match o with
  | VDict _ | VList _ => Ok o
  | _ => Raise (no_copy o)
  end.

(** [o[key]] for a string literal [key], as in [rule['condition']]. *)
Definition subscript (o : json) (key : string) : result json :=
  match o with
  | VDict kvs =>
      match dict_get key kvs with
      | Some v => Ok v
      | None => Raise (mkExn KeyError ("'" ++ key ++ "'"))
      end
  | VList _ =>
      Raise (mkExn TypeError "list indices must be integers or slices, not str")
  | VStr _ => Raise (mkExn TypeError "string indices must be integers, not 'str'")
  | _ =>
      Raise (mkExn TypeError
               ("'" ++ type_name o ++ "' object is not subscriptable"))
  end.

(** Occurrence of [t] in [s], for [t in s] on strings. *)
Definition is_substring (t s : string) : bool :=
  match String.index 0 t s with Some _ => true | None => false end.

(** [item in container], for an item of the rule set.  A dict hashes the
    item first, so a list or a dict as item raises; the keys of a JSON
    object are strings, so no other item is found.  A list compares its
    elements with [==]. *)
Definition py_contains (h : list json) (item container : json) : result bool :=
  match container with
  | VDict kvs =>
      match item with
      | VStr k => Ok (dict_has k kvs)
      | VList _ | VDict _ | VRef _ =>
          Raise (mkExn TypeError
                   ("unhashable type: '" ++ type_name (get_obj h item) ++ "'"))
      | _ => Ok false
      end
  | VList xs => Ok (existsb (eq_deep h item) xs)
  | VStr s =>
      match item with
      | VStr t => Ok (is_substring t s)
      | _ =>
          Raise (mkExn TypeError
                   ("'in <string>' requires string as left operand, not "
                    ++ type_name (get_obj h item)))
      end
  | _ =>
      Raise (mkExn TypeError
               ("argument of type '" ++ type_name container
                ++ "' is not iterable"))
  end.

(** An object usable as a list index: an [int], or a [bool] through
    [__index__]. *)
Definition as_index (key : json) : option Z :=
  match key with
  | VInt i => Some i
  | VBool b => Some (Z_of_bool b)
  | _ => None
  end.

Fixpoint list_set (n : nat) (v : json) (xs : list json) : list json :=
  match xs, n with
  | [], _ => []
  | _ :: rest, O => v :: rest
  | x :: rest, S n' => x :: list_set n' v rest
  end.

(** [container[key] = v].  On a dict of string keys only a string key is
    representable; the engine assigns only after [key in container]
    answered true, which on such a dict means the key is a string. *)
Definition py_setitem (h : list json) (container key v : json) : result json :=
  match container with
  | VDict kvs =>
      match key with
      | VStr k => Ok (VDict (dict_set k v kvs))
      | VList _ | VDict _ | VRef _ =>
          Raise (mkExn TypeError
                   ("unhashable type: '" ++ type_name (get_obj h key) ++ "'"))
      | _ => Raise (mkExn TypeError "key outside the model of JSON objects")
      end
  | VList xs =>
      match as_index key with
      | Some i =>
          let n := Z.of_nat (length xs) in
          let j := if (i <? 0)%Z then (i + n)%Z else i in
          if ((0 <=? j)%Z && (j <? n)%Z)%bool
          then Ok (VList (list_set (Z.to_nat j) v xs))
          else Raise (mkExn IndexError "list assignment index out of range")
      | None =>
          Raise (mkExn TypeError
                   ("list indices must be integers or slices, not "
                    ++ type_name (get_obj h key)))
      end
  | _ =>
      Raise (mkExn TypeError
               ("'" ++ type_name container
                ++ "' object does not support item assignment"))
  end.

(** [s.lower()] and [s.endswith(suffix)].  Strings are byte strings here; no
    character outside ASCII lowers to one of the letters of [.json], so the
    extension test of [main] is the same on bytes. *)
Definition lower_ascii (c : ascii) : ascii :=
  let n := nat_of_ascii c in
  if (65 <=? n)%nat && (n <=? 90)%nat then ascii_of_nat (n + 32) else c.

Fixpoint lower (s : string) : string :=
  match s with
  | EmptyString => EmptyString
  | String c rest => String (lower_ascii c) (lower rest)
  end.

Definition endswith (s suffix : string) : bool :=
  let n := String.length s in
  let m := String.length suffix in
  (m <=? n)%nat && String.eqb (substring (n - m) m s) suffix.

(** ** Computations: state and exceptions *)

(** Code that cannot leave but by returning or by raising an [Exception]:
    the loader, the providers, the steps on the store. *)
Definition M (S A : Type) : Type := S -> result A * S.

Definition ret {S A} (a : A) : M S A := fun w => (Ok a, w).

Definition bind {S A B} (m : M S A) (k : A -> M S B) : M S B :=
  fun w =>
    match m w with
    | (Ok a, w') => k a w'
    | (Raise e, w') => (Raise e, w')
    end.

Definition raise {S A} (e : exn) : M S A := fun w => (Raise e, w).

(** [try: m  except ... as e: handler e].  The handler runs in the world the
    body had reached when it raised. *)
Definition try_catch {S A} (m : M S A) (handler : exn -> M S A) : M S A :=
  fun w =>
    match m w with
    | (Ok a, w') => (Ok a, w')
    | (Raise e, w') => handler e w'
    end.

Definition lift {S A} (r : result A) : M S A := fun w => (r, w).

Notation "x <- m ;; k" := (bind m (fun x => k))
  (at level 61, m at next level, right associativity).
Notation "m ;; k" := (bind m (fun _ => k))
  (at level 61, right associativity).

(** [for x in xs: body x] *)
Fixpoint for_each {S A} (xs : list A) (body : A -> M S unit) : M S unit :=
  match xs with
  | [] => ret tt
  | x :: rest => body x ;; for_each rest body
  end.

(** Code that runs [eval]: its outcome is a [flow]. *)
Definition E (S A : Type) : Type := S -> flow A * S.

(** A step that cannot escape, as a step of code that can. *)
Definition run {S A} (m : M S A) : E S A :=
  fun w => let (r, w') := m w in (Normal r, w').

Definition bind_flow {S A B} (m : E S A) (k : A -> E S B) : E S B :=
  fun w =>
    match m w with
    | (Normal (Ok a), w') => k a w'
    | (Normal (Raise e), w') => (Normal (Raise e), w')
    | (Escapes b, w') => (Escapes b, w')
    | (Diverges, w') => (Diverges, w')
    end.

(** [try: m  except Exception as e: handler e]: what does not derive from
    [Exception] passes the handler. *)
Definition try_except {S A} (m : E S A) (handler : exn -> E S A) : E S A :=
  fun w =>
    match m w with
    | (Normal (Raise e), w') => handler e w'
    | other => other
    end.

Notation "x <~ m ;; k" := (bind_flow m (fun x => k))
  (at level 61, m at next level, right associativity).
Notation "m ;;; k" := (bind_flow m (fun _ => k))
  (at level 61, right associativity).

Fixpoint for_each_flow {S A} (xs : list A) (body : A -> E S unit) : E S unit :=
  match xs with
  | [] => run (ret tt)
  | x :: rest => body x ;;; for_each_flow rest body
  end.

(** ** The log, the files, the generator *)

Inductive level : Type := INFO | WARNING | ERROR.

(** One constructor per logging call of [main.py], with the values its
    format string interpolates. *)
Inductive log_msg : Type :=
| ConfigNotFound (path : string)      (* Configuration file not found: .. *)
| ConfigInvalidJSON (path : string)   (* Invalid JSON in configuration file: .. *)
| ConfigInvalid (e : exn)             (* Invalid configuration: .. *)
| ConfigLoadError (e : exn)           (* Error loading configuration: .. *)
| FieldNotFound (field : json)        (* Field '..' not found in record. Skipping masking. *)
| CondNameError (e : exn)             (* Error in condition evaluation.  Invalid variable used: .. *)
| CondOrMaskError (e : exn)           (* Error evaluating condition or masking: .. *)
| UnknownMaskingType (mt : json)      (* Unknown masking type: ...  Returning 'MASKED'. *)
| MaskingError (e : exn)              (* Error applying masking: .. *)
| ConfigLoadFailed                    (* Configuration loading failed.  Exiting. *)
| InputInvalidJSON (path : string)    (* Invalid JSON in input file: .. *)
| InputNotList                        (* Input file must contain a list of records (JSON array). *)
| MaskingComplete (path : string)     (* Data masking complete.  Output written to: .. *)
| InputNotFound (path : string)       (* Input file not found: .. *)
| ProcessingError (e : exn)           (* Error processing data: .. *)
| ConfigNotJsonFile                   (* Config file must be a JSON file. *)
| InputNotJsonFile                    (* Input file must be a JSON file. *)
| OutputNotJsonFile.                  (* Output file must be a JSON file. *)

Definition log_entry : Type := level * log_msg.

(** What [json.load] makes of what a path holds: text that is the JSON
    value [v]; text that is not JSON ([json.JSONDecodeError]); or content
    on which reading or parsing raises something else (bytes that are not
    text raise [UnicodeDecodeError], nesting too deep [RecursionError]).
    [open] itself may refuse a path with an exception (a directory, a path
    without permission).  A path with no entry does not exist. *)
Inductive content : Type :=
| Parses (v : json)
| Unparsable
| Fails (e : exn).

Inductive file : Type :=
| Readable (c : content)
| Denied (e : exn).

Definition filesystem := list (string * file).

Fixpoint fs_lookup (path : string) (files : filesystem) : option file :=
  match files with
  | [] => None
  | (p, f) :: rest => if String.eqb path p then Some f else fs_lookup path rest
  end.

Definition fs_write (path : string) (f : file) (files : filesystem) : filesystem :=
  (path, f) :: files.

(** The Faker providers [apply_masking] calls. *)
Inductive provider : Type :=
| P_name | P_email | P_address | P_phone_number | P_company | P_ssn
| P_date | P_city | P_country | P_text | P_password.

(** The attributes of a [ConditionalMasker] object; [config] is [None] when
    loading failed. *)
Record masker : Type := mkMasker {
  config_file : string;
  input_file : string;
  output_file : string;
  config : option (list json)
}.

(** The state of a run: the object store, the generator, the log, the
    files. *)
Record world (G : Type) : Type := mkWorld {
  heap : list json;
  gen : G;
  logs : list log_entry;
  fs : filesystem
}.
Arguments mkWorld {G} heap gen logs fs.
Arguments heap {G} w.
Arguments gen {G} w.
Arguments logs {G} w.
Arguments fs {G} w.

Definition set_heap {G} (w : world G) (h : list json) : world G :=
  mkWorld h (gen w) (logs w) (fs w).
Definition set_gen {G} (w : world G) (g : G) : world G :=
  mkWorld (heap w) g (logs w) (fs w).
Definition add_log {G} (w : world G) (entry : log_entry) : world G :=
  mkWorld (heap w) (gen w) (logs w ++ [entry]) (fs w).
Definition set_fs {G} (w : world G) (files : filesystem) : world G :=
  mkWorld (heap w) (gen w) (logs w) files.

(** ** A concrete evaluator and a concrete generator

    The engine is stated for any evaluator and any generator.  To run it on
    concrete records, [cond_eval] evaluates a fragment of Python's
    expressions the way CPython 3.11 does when [main.py] is run as a
    script:
    - literals [None], [True], [False], decimal integers (with an optional
      minus sign) and strings between single quotes without a backslash;
    - names, looked up in the locals and then in the module [builtins];
    - one comparison ([==], [!=], [<], [<=], [>], [>=]) between a literal
      and a name or a literal;
    - [not], [and], [or] and parentheses around them;
    - an assignment expression [(name := literal)];
    - the calls [exit(n)] and [quit(n)] with a status from 0 to 255, and
      [name.append(literal)].
    Blanks are free between the tokens.  Text outside the fragment is
    answered with a [SyntaxError] whose message says so, which need not be
    Python's verdict on it; names that begin with an underscore are outside
    the fragment. *)

Inductive lit : Type :=
| LitNone
| LitBool (b : bool)
| LitInt (z : Z)
| LitStr (s : string).

Inductive cmp : Type := CmpEq | CmpNe | CmpLt | CmpLe | CmpGt | CmpGe.

Inductive operand : Type :=
| OLit (c : lit)
| OName (x : string).

Inductive expr : Type :=
| EOperand (a : operand)
| ECompare (a : operand) (op : cmp) (b : operand)
| EWalrus (x : string) (c : lit)
| EExit (callee : string) (status : Z)
| EAppend (x : string) (c : lit)
| ENot (e : expr)
| EAnd (e1 e2 : expr)
| EOr (e1 e2 : expr).

Inductive token : Type :=
| TLit (c : lit)
| TNum (z : Z)
| TName (x : string)
| TAnd | TOr | TNot
| TOpen | TClose | TWalrus | TDot | TMinus
| TCmp (op : cmp).

(** *** Tokens *)

Definition is_digit (c : ascii) : bool :=
  let n := nat_of_ascii c in (48 <=? n)%nat && (n <=? 57)%nat.

Definition is_letter (c : ascii) : bool :=
  let n := nat_of_ascii c in
  ((65 <=? n)%nat && (n <=? 90)%nat) || ((97 <=? n)%nat && (n <=? 122)%nat)
  || (n =? 95)%nat.

Definition is_blank (c : ascii) : bool :=
  let n := nat_of_ascii c in (n =? 32)%nat || (n =? 9)%nat.

Definition digit_value (c : ascii) : Z := Z.of_nat (nat_of_ascii c - 48).

(** The words of Python that are not names. *)
Definition reserved : list string :=
  ["as"; "assert"; "async"; "await"; "break"; "class"; "continue"; "def";
   "del"; "elif"; "else"; "except"; "finally"; "for"; "from"; "global";
   "if"; "import"; "in"; "is"; "lambda"; "nonlocal"; "pass"; "raise";
   "return"; "try"; "while"; "with"; "yield"].

Definition word_token (word : string) : option token :=
  if String.eqb word "None" then Some (TLit LitNone)
  else if String.eqb word "True" then Some (TLit (LitBool true))
  else if String.eqb word "False" then Some (TLit (LitBool false))
  else if String.eqb word "and" then Some TAnd
  else if String.eqb word "or" then Some TOr
  else if String.eqb word "not" then Some TNot
  else if existsb (String.eqb word) reserved then None
  else match word with
       | String "_" _ => None
       | _ => Some (TName word)
       end.

(** What the tokenizer is in the middle of. *)
Inductive lexing : Type :=
| Idle
| InWord (word : string)
| InNumber (zero : bool) (n : Z)
| InString (text : string).

Definition snoc (s : string) (c : ascii) : string := s ++ String c EmptyString.

(** One step of the tokenizer outside a token, on character [c] followed by
    [next]: the tokens that are complete, what the tokenizer is in now, and
    whether [next] was taken with [c]. *)
Definition start (c : ascii) (next : option ascii)
  : option (list token * lexing * bool) :=
  if is_blank c then Some ([], Idle, false)
  else if is_digit c then
    Some ([], InNumber (Ascii.eqb c "0") (digit_value c), false)
  else if is_letter c then Some ([], InWord (String c EmptyString), false)
  else if Ascii.eqb c "'" then Some ([], InString EmptyString, false)
  else if Ascii.eqb c "(" then Some ([TOpen], Idle, false)
  else if Ascii.eqb c ")" then Some ([TClose], Idle, false)
  else if Ascii.eqb c "." then Some ([TDot], Idle, false)
  else if Ascii.eqb c "-" then Some ([TMinus], Idle, false)
  else
    match next with
    | Some "="%char =>
        if Ascii.eqb c ":" then Some ([TWalrus], Idle, true)
        else if Ascii.eqb c "=" then Some ([TCmp CmpEq], Idle, true)
        else if Ascii.eqb c "!" then Some ([TCmp CmpNe], Idle, true)
        else if Ascii.eqb c "<" then Some ([TCmp CmpLe], Idle, true)
        else if Ascii.eqb c ">" then Some ([TCmp CmpGe], Idle, true)
        else None
    | _ =>
        if Ascii.eqb c "<" then Some ([TCmp CmpLt], Idle, false)
        else if Ascii.eqb c ">" then Some ([TCmp CmpGt], Idle, false)
        else None
    end.

(** The token that ends when the text ends or a character that is not
    part of it comes. *)
Definition flush (st : lexing) : option (list token) :=
  match st with
  | Idle => Some []
  | InWord word =>
      match word_token word with Some t => Some [t] | None => None end
  | InNumber _ n => Some [TNum n]
  | InString _ => None
  end.

Definition step (st : lexing) (c : ascii) (next : option ascii)
  : option (list token * lexing * bool) :=
  let ended :=
    match flush st, start c next with
    | Some done, Some (ts, st', took) => Some (done ++ ts, st', took)
    | _, _ => None
    end in
  match st with
  | Idle => start c next
  | InString text =>
      if Ascii.eqb c "'" then Some ([TLit (LitStr text)], Idle, false)
      else if (nat_of_ascii c =? 92)%nat || (nat_of_ascii c <? 32)%nat
      then None
      else Some ([], InString (snoc text c), false)
  | InWord word =>
      if is_letter c || is_digit c then Some ([], InWord (snoc word c), false)
      else if Ascii.eqb c "'" then None
      else ended
  | InNumber zero n =>
      if is_digit c then
        if zero then None
        else Some ([], InNumber false (10 * n + digit_value c)%Z, false)
      else if is_letter c || Ascii.eqb c "." then None
      else ended
  end.

Fixpoint lex (s : string) (st : lexing) {struct s} : option (list token) :=
  match s with
  | EmptyString => flush st
  | String c rest =>
      let next := match rest with String d _ => Some d | EmptyString => None end in
      match step st c next with
      | None => None
      | Some (ts, st', took) =>
          match
            match took, rest with
            | true, String _ rest' => lex rest' st'
            | _, _ => lex rest st'
            end
          with
          | Some more => Some (ts ++ more)
          | None => None
          end
      end
  end.

(** *** Syntax *)

(** The levels of the grammar, from the loosest operator to the atoms. *)
Inductive prec : Type := POr | PAnd | PNot | PAtom.

Definition as_lit (ts : list token) : option (lit * list token) :=
  match ts with
  | TLit c :: rest => Some (c, rest)
  | TNum n :: rest => Some (LitInt n, rest)
  | TMinus :: TNum n :: rest => Some (LitInt (- n), rest)
  | _ => None
  end.

Definition as_operand (ts : list token) : option (operand * list token) :=
  match as_lit ts with
  | Some (c, rest) => Some (OLit c, rest)
  | None =>
      match ts with
      | TName x :: rest => Some (OName x, rest)
      | _ => None
      end
  end.

Definition is_lit (a : operand) : bool :=
  match a with OLit _ => true | OName _ => false end.

(** An atom that is not between parentheses: a call, or an operand with
    at most one comparison after it. *)
Definition plain_atom (ts : list token) : option (expr * list token) :=
  match ts with
  | TName callee :: TOpen :: TNum n :: TClose :: rest =>
      if (String.eqb callee "exit" || String.eqb callee "quit")
         && (n <=? 255)%Z
      then Some (EExit callee n, rest) else None
  | TName x :: TDot :: TName method :: TOpen :: rest =>
      if String.eqb method "append" then
        match as_lit rest with
        | Some (c, TClose :: rest') => Some (EAppend x c, rest')
        | _ => None
        end
      else None
  | _ =>
      match as_operand ts with
      | Some (a, TCmp op :: rest) =>
          match as_operand rest with
          | Some (b, rest') =>
              if is_lit a || is_lit b then Some (ECompare a op b, rest')
              else None
          | None => None
          end
      | Some (a, rest) => Some (EOperand a, rest)
      | None => None
      end
  end.

Fixpoint parse (fuel : nat) (p : prec) (ts : list token) {struct fuel}
  : option (expr * list token) :=
  match fuel with
  | O => None
  | S fuel' =>
      match p with
      | POr =>
          match parse fuel' PAnd ts with
          | Some (a, TOr :: rest) =>
              match parse fuel' POr rest with
              | Some (b, rest') => Some (EOr a b, rest')
              | None => None
              end
          | other => other
          end
      | PAnd =>
          match parse fuel' PNot ts with
          | Some (a, TAnd :: rest) =>
              match parse fuel' PAnd rest with
              | Some (b, rest') => Some (EAnd a b, rest')
              | None => None
              end
          | other => other
          end
      | PNot =>
          match ts with
          | TNot :: rest =>
              match parse fuel' PNot rest with
              | Some (a, rest') => Some (ENot a, rest')
              | None => None
              end
          | _ => parse fuel' PAtom ts
          end
      | PAtom =>
          match ts with
          | TOpen :: TName x :: TWalrus :: rest =>
              match as_lit rest with
              | Some (c, TClose :: rest') => Some (EWalrus x c, rest')
              | _ => None
              end
          | TOpen :: rest =>
              match parse fuel' POr rest with
              | Some (a, TClose :: rest') => Some (a, rest')
              | _ => None
              end
          | _ => plain_atom ts
          end
      end
  end.

(** The expression a text denotes, when the text is in the fragment. *)
Definition parse_text (text : string) : option expr :=
  match lex text Idle with
  | Some ts =>
      match parse (4 * length ts + 4) POr ts with
      | Some (e, []) => Some e
      | _ => None
      end
  | None => None
  end.

(** *** Values and names *)

(** What a name or a literal evaluates to: a JSON value of the record, or
    an object of the module [builtins], of which the type name is kept. *)
Inductive pyval : Type :=
| Json (v : json)
| Builtin (name kind : string).

Definition builtin_types : list string :=
  ["ArithmeticError"; "AssertionError"; "AttributeError"; "BaseException";
   "BaseExceptionGroup"; "BlockingIOError"; "BrokenPipeError"; "BufferError";
   "BytesWarning"; "ChildProcessError"; "ConnectionAbortedError";
   "ConnectionError"; "ConnectionRefusedError"; "ConnectionResetError";
   "DeprecationWarning"; "EOFError"; "EncodingWarning"; "EnvironmentError";
   "Exception"; "ExceptionGroup"; "FileExistsError"; "FileNotFoundError";
   "FloatingPointError"; "FutureWarning"; "GeneratorExit"; "IOError";
   "ImportError"; "ImportWarning"; "IndentationError"; "IndexError";
   "InterruptedError"; "IsADirectoryError"; "KeyError"; "KeyboardInterrupt";
   "LookupError"; "MemoryError"; "ModuleNotFoundError"; "NameError";
   "NotADirectoryError"; "NotImplementedError"; "OSError"; "OverflowError";
   "PendingDeprecationWarning"; "PermissionError"; "ProcessLookupError";
   "RecursionError"; "ReferenceError"; "ResourceWarning"; "RuntimeError";
   "RuntimeWarning"; "StopAsyncIteration"; "StopIteration"; "SyntaxError";
   "SyntaxWarning"; "SystemError"; "SystemExit"; "TabError"; "TimeoutError";
   "TypeError"; "UnboundLocalError"; "UnicodeDecodeError";
   "UnicodeEncodeError"; "UnicodeError"; "UnicodeTranslateError";
   "UnicodeWarning"; "UserWarning"; "ValueError"; "Warning";
   "ZeroDivisionError"; "bool"; "bytearray"; "bytes"; "classmethod";
   "complex"; "dict"; "enumerate"; "filter"; "float"; "frozenset"; "int";
   "list"; "map"; "memoryview"; "object"; "property"; "range"; "reversed";
   "set"; "slice"; "staticmethod"; "str"; "super"; "tuple"; "type"; "zip"].

Definition builtin_functions : list string :=
  ["abs"; "aiter"; "all"; "anext"; "any"; "ascii"; "bin"; "breakpoint";
   "callable"; "chr"; "compile"; "delattr"; "dir"; "divmod"; "eval"; "exec";
   "format"; "getattr"; "globals"; "hasattr"; "hash"; "hex"; "id"; "input";
   "isinstance"; "issubclass"; "iter"; "len"; "locals"; "max"; "min"; "next";
   "oct"; "open"; "ord"; "pow"; "print"; "repr"; "round"; "setattr";
   "sorted"; "sum"; "vars"].

(** The other objects of [builtins], with the name of their type; [site]
    adds the last six. *)
Definition builtin_others : pydict :=
  [("Ellipsis", VStr "ellipsis"); ("NotImplemented", VStr "NotImplementedType");
   ("copyright", VStr "_Printer"); ("credits", VStr "_Printer");
   ("license", VStr "_Printer"); ("exit", VStr "Quitter");
   ("quit", VStr "Quitter"); ("help", VStr "_Helper")].

Definition builtin_kind (x : string) : option string :=
  if existsb (String.eqb x) builtin_types then Some "type"
  else if existsb (String.eqb x) builtin_functions
  then Some "builtin_function_or_method"
  else match dict_get x builtin_others with
       | Some (VStr kind) => Some kind
       | _ => None
       end.

Definition lit_value (c : lit) : json :=
  match c with
  | LitNone => VNull
  | LitBool b => VBool b
  | LitInt z => VInt z
  | LitStr s => VStr s
  end.

(** A name is looked up in the locals with [locals[name]]; only a
    [KeyError] sends the lookup on to the globals, which are empty, and to
    the builtins. *)
Definition load_name (locals : json) (x : string) : result pyval :=
  match locals with
  | VDict kvs =>
      match dict_get x kvs with
      | Some v => Ok (Json v)
      | None =>
          match builtin_kind x with
          | Some kind => Ok (Builtin x kind)
          | None =>
              Raise (mkExn NameError ("name '" ++ x ++ "' is not defined"))
          end
      end
  | _ =>
      Raise (mkExn TypeError
               (type_name locals
                ++ " indices must be integers or slices, not str"))
  end.

Definition eval_operand (locals : json) (a : operand) : result pyval :=
  match a with
  | OLit c => Ok (Json (lit_value c))
  | OName x => load_name locals x
  end.

Definition kind_of (h : list json) (v : pyval) : string :=
  match v with
  | Json o => type_name (get_obj h o)
  | Builtin _ kind => kind
  end.

(** Truth value of an object as tested by [if], [not], [and] and [or]. *)
Definition truthy (o : json) : bool :=
  match o with
  | VNull => false
  | VBool b => b
  | VInt z => negb (Z.eqb z 0)
  | VStr s => negb (String.eqb s "")
  | VList xs => match xs with [] => false | _ => true end
  | VDict kvs => match kvs with [] => false | _ => true end
  | VRef _ => true
  end.

Definition truth_of (h : list json) (v : pyval) : bool :=
  match v with
  | Json o => truthy (get_obj h o)
  | Builtin _ _ => true
  end.

Definition cmp_symbol (op : cmp) : string :=
  match op with
  | CmpEq => "==" | CmpNe => "!=" | CmpLt => "<" | CmpLe => "<="
  | CmpGt => ">" | CmpGe => ">="
  end.

(** The number a value is in an ordering comparison. *)
Definition as_number (o : json) : option Z :=
  match o with
  | VInt z => Some z
  | VBool b => Some (Z_of_bool b)
  | _ => None
  end.

Definition holds_of (op : cmp) (c : comparison) : bool :=
  match op, c with
  | CmpEq, Eq | CmpLe, Eq | CmpGe, Eq => true
  | CmpNe, Lt | CmpLt, Lt | CmpLe, Lt => true
  | CmpNe, Gt | CmpGt, Gt | CmpGe, Gt => true
  | _, _ => false
  end.

(** A comparison one side of which is a literal.  Equality never raises;
    an ordering is defined between numbers and between strings. *)
Definition compare (h : list json) (op : cmp) (a b : pyval) : result bool :=
  let unordered :=
    Raise (mkExn TypeError
             ("'" ++ cmp_symbol op ++ "' not supported between instances of '"
              ++ kind_of h a ++ "' and '" ++ kind_of h b ++ "'")) in
  match op with
  | CmpEq | CmpNe =>
      let equal :=
        match a, b with
        | Json x, Json y => py_eq (get_obj h x) (get_obj h y)
        | _, _ => false
        end in
      Ok (match op with CmpEq => equal | _ => negb equal end)
  | _ =>
      match a, b with
      | Json x, Json y =>
          match get_obj h x, get_obj h y with
          | VStr s, VStr t => Ok (holds_of op (String.compare s t))
          | ox, oy =>
              match as_number ox, as_number oy with
              | Some m, Some n => Ok (holds_of op (Z.compare m n))
              | _, _ => unordered
              end
          end
      | _, _ => unordered
      end
  end.

(** *** Evaluation *)

Definition not_callable (o : json) : exn :=
  mkExn TypeError ("'" ++ type_name o ++ "' object is not callable").

Definition no_append (kind : string) : exn :=
  mkExn AttributeError ("'" ++ kind ++ "' object has no attribute 'append'").

(** [append] looked up on an object of [builtins]: the types [list] and
    [bytearray] have it as a method of their instances, which a literal is
    not; the other objects do not have it. *)
Definition builtin_append (name kind : string) (c : lit) : exn :=
  if String.eqb kind "type" then
    if String.eqb name "list" || String.eqb name "bytearray" then
      mkExn TypeError
        ("descriptor 'append' for '" ++ name ++ "' objects doesn't apply to a '"
         ++ type_name (lit_value c) ++ "' object")
    else
      mkExn AttributeError
        ("type object '" ++ name ++ "' has no attribute 'append'")
  else no_append kind.

(** The truth value of an expression with the object at [l] as locals, and
    what its evaluation does to the world.  [and] and [or] evaluate their
    right operand only when the left one does not decide; an assignment
    expression binds the name in the locals; [append] changes the list
    object the name refers to, wherever else it is referred to. *)
Fixpoint eval_expr {G} (e : expr) (l : loc) (w : world G) {struct e}
  : flow bool * world G :=
  let locals := nth l (heap w) VNull in
  match e with
  | EOperand a =>
      match eval_operand locals a with
      | Ok v => (Normal (Ok (truth_of (heap w) v)), w)
      | Raise err => (Normal (Raise err), w)
      end
  | ECompare a op b =>
      match eval_operand locals a with
      | Ok x =>
          match eval_operand locals b with
          | Ok y => (Normal (compare (heap w) op x y), w)
          | Raise err => (Normal (Raise err), w)
          end
      | Raise err => (Normal (Raise err), w)
      end
  | EWalrus x c =>
      match locals with
      | VDict kvs =>
          (Normal (Ok (truthy (lit_value c))),
           set_heap w
             (list_set l (VDict (dict_set x (lit_value c) kvs)) (heap w)))
      | _ =>
          (Normal (Raise (mkExn TypeError
                            (type_name locals
                             ++ " indices must be integers or slices, not str"))),
           w)
      end
  | EExit callee status =>
      match load_name locals callee with
      | Ok (Json v) => (Normal (Raise (not_callable (get_obj (heap w) v))), w)
      | Ok (Builtin _ _) => (Escapes (SystemExit status), w)
      | Raise err => (Normal (Raise err), w)
      end
  | EAppend x c =>
      match load_name locals x with
      | Ok (Json (VRef l')) =>
          match nth l' (heap w) VNull with
          | VList xs =>
              (Normal (Ok false),
               set_heap w
                 (list_set l' (VList (xs ++ [lit_value c])) (heap w)))
          | o => (Normal (Raise (no_append (type_name o))), w)
          end
      | Ok (Json o) => (Normal (Raise (no_append (type_name o))), w)
      | Ok (Builtin name kind) =>
          (Normal (Raise (builtin_append name kind c)), w)
      | Raise err => (Normal (Raise err), w)
      end
  | ENot e1 =>
      match eval_expr e1 l w with
      | (Normal (Ok b), w') => (Normal (Ok (negb b)), w')
      | other => other
      end
  | EAnd e1 e2 =>
      match eval_expr e1 l w with
      | (Normal (Ok true), w') => eval_expr e2 l w'
      | other => other
      end
  | EOr e1 e2 =>
      match eval_expr e1 l w with
      | (Normal (Ok false), w') => eval_expr e2 l w'
      | other => other
      end
  end.

Definition outside_fragment : exn :=
  mkExn SyntaxError "expression outside the fragment of cond_eval".

(** [eval(text, {}, locals)] followed by the truth test of its value.
    [eval] first checks that the locals are a mapping, which a dict is and
    a list passes for; then it compiles the text; then it evaluates. *)
Definition cond_eval {G} (text : string) (l : loc) (w : world G)
  : flow bool * world G :=
  match nth_error (heap w) l with
  | Some (VDict _) | Some (VList _) =>
      match parse_text text with
      | Some e => eval_expr e l w
      | None => (Normal (Raise outside_fragment), w)
      end
  | _ => (Normal (Raise (mkExn TypeError "locals must be a mapping")), w)
  end.




Definition provider_label (p : provider) : string :=
  match p with
  | P_name => "name" | P_email => "email" | P_address => "address"
  | P_phone_number => "phone_number" | P_company => "company"
  | P_ssn => "ssn" | P_date => "date" | P_city => "city"
  | P_country => "country" | P_text => "text" | P_password => "password"
  end.

Fixpoint tally (n : nat) : string :=
  match n with
  | O => EmptyString
  | S n' => String "i" (tally n')
  end.

(** A generator that numbers its values: the [n]-th call for provider [p]
    returns the label of [p], a [#], and [n] strokes. *)
Definition counting_fake (p : provider) (n : nat) : result string * nat :=
  (Ok (provider_label p ++ "#" ++ tally n)%string, S n).

(** A generator whose every provider fails. *)
Definition failing_fake (p : provider) (n : nat) : result string * nat :=
  (Raise (mkExn Exception "provider failure"), S n).

(** ** Sample inputs

    The scenario of the specification: one rule masking [email] where
    [department == 'HR'], and the records A (HR) and B (Sales); with them a
    few more rules to exercise the order of the rules, a failing condition,
    and conditions that do more than compute a truth value. *)

Definition make_rule (condition field masking_type : string) : json :=
  VDict [("condition", VStr condition); ("field", VStr field);
         ("masking_type", VStr masking_type)].

Definition rule_hr_email : json := make_rule "department == 'HR'" "email" "email".
Definition rule_always_department : json := make_rule "True" "department" "company".
Definition rule_always_name : json := make_rule "True" "name" "name".
Definition rule_salary : json := make_rule "salary > 10" "email" "email".

(** Conditions with an assignment expression, a call that leaves the
    interpreter, and a call that changes a nested list. *)
Definition rule_exit : json := make_rule "exit(3)" "email" "email".

Definition fields_A : pydict :=
  [("name", VStr "A"); ("department", VStr "HR"); ("email", VStr "a@x.com");
   ("age", VInt 65)].
Definition fields_B : pydict :=
  [("name", VStr "B"); ("department", VStr "Sales"); ("email", VStr "b@x.com");
   ("age", VInt 30)].

(** A world whose store holds the two records, and nothing else. *)
Definition two_records : world nat :=
  mkWorld [VDict fields_A; VDict fields_B] 0 [] [].

(** A record with a nested list: the list is an object of its own (at
    location 0), to which the record (at location 1) refers. *)
Definition fields_T : pydict := [("name", VStr "T"); ("tags", VRef 0)].


(** Files for a run of the program: a rule set that does not parse, next
    to a well-formed input. *)
Definition files_with_broken_rules : filesystem :=
  [("rules.json", Readable Unparsable);
   ("in.json", Readable (Parses (VList [VDict fields_A; VDict fields_B])))].

Definition broken_rules_world : world nat :=
  mkWorld [] 0 [] files_with_broken_rules.

(** Rules with a condition or a field that is not a string, and a rule
    on a field no sample record has. *)
Definition rule_condition_true : json :=
  VDict [("condition", VBool true); ("field", VStr "email");
         ("masking_type", VStr "email")].
Definition rule_phone : json := make_rule "True" "phone" "phone_number".
Definition rule_legal_email : json :=
  make_rule "department == 'Legal'" "email" "email".


(** Files for complete runs: a rule set, an array of the two records, an
    array with a number in it, bytes that are not text, arrays nested too
    deep, and an output path in a directory that does not exist. *)
Definition not_utf8 : exn :=
  mkExn UnicodeDecodeError
    "'utf-8' codec can't decode byte 0xff in position 0: invalid start byte".

Definition no_permission : exn :=
  mkExn (Derived "PermissionError" OSError)
    "[Errno 13] Permission denied: 'locked.json'".

Definition too_deep : exn :=
  mkExn RecursionError
    "maximum recursion depth exceeded while decoding a JSON array from a unicode string".

Definition good_files : filesystem :=
  [("rules.json", Readable (Parses (VList [rule_hr_email])));
   ("in.json", Readable (Parses (VList [VDict fields_A; VDict fields_B])));
   ("exit.json", Readable (Parses (VList [rule_exit])));
   ("mixed.json", Readable (Parses (VList [VDict fields_A; VInt 7])));
   ("object.json", Readable (Parses (VDict fields_A)));
   ("text.json", Readable Unparsable);
   ("bytes.json", Readable (Fails not_utf8));
   ("deep.json", Readable (Fails too_deep));
   ("locked.json", Denied no_permission);
   ("missing/out.json", Denied (mkExn FileNotFoundError "missing/out.json"))].

Definition good_world : world nat := mkWorld [] 0 [] good_files.

Definition sample_masker (inp out : string) : masker :=
  mkMasker "rules.json" inp out (Some [rule_hr_email]).

(** The world a computation ends in, and its outcome. *)
Definition after {S R : Type} (m : S -> R * S) (w : S) : S := snd (m w).
Definition outcome {S R : Type} (m : S -> R * S) (w : S) : R := fst (m w).

(** ** The engine *)

Section Engine.

Variable G : Type.
(** [fake p g]: what provider [p] returns in generator state [g] (a string,
    or an exception raised inside Faker), and the next state. *)
Variable fake : provider -> G -> result string * G.

Abbreviation W := (world G).

(** [py_eval text locals]: what [eval(text, {}, locals)] and the truth test
    [if] makes of its value come to, and the world they leave.  The
    evaluator is any function of this type: nothing is assumed of what it
    does to the store, the generator, the log and the files. *)
Variable py_eval : string -> loc -> W -> flow bool * W.

(** *** Primitive steps *)

Definition log_at (lv : level) (m : log_msg) : M W unit :=
  fun w => (Ok tt, add_log w (lv, m)).

Definition alloc (o : json) : M W loc :=
  fun w => (Ok (length (heap w)), set_heap w (heap w ++ [o])).

Definition deref (l : loc) : M W json :=
  fun w =>
    match nth_error (heap w) l with
    | Some o => (Ok o, w)
    | None => (Raise (mkExn Exception "no object at this location"), w)
    end.

Definition store (l : loc) (o : json) : M W unit :=
  fun w => (Ok tt, set_heap w (list_set l o (heap w))).

Definition call_fake (p : provider) : M W string :=
  fun w => let (r, g) := fake p (gen w) in (r, set_gen w g).

(** [open(path, 'r')] *)
Definition open_read (path : string) : M W content :=
  fun w =>
    match fs_lookup path (fs w) with
    | None => (Raise (mkExn FileNotFoundError path), w)
    | Some (Denied e) => (Raise e, w)
    | Some (Readable c) => (Ok c, w)
    end.

(** [json.load(f)] *)
Definition json_load (f : content) : M W json :=
  match f with
  | Parses v => ret v
  | Unparsable => raise (mkExn JSONDecodeError "Expecting value")
  | Fails e => raise e
  end.

Definition circular : exn := mkExn ValueError "Circular reference detected".

(** [with open(path, 'w') as f: json.dump(masked_data, f, indent=4)].
    Opening truncates the file; [json.dump] then writes the text piece by
    piece, and stops with [ValueError] at a container that contains
    itself, leaving text that is not JSON. *)
Definition write_json (path : string) (masked_data : list loc) : M W unit :=
  fun w =>
    match fs_lookup path (fs w) with
    | Some (Denied e) => (Raise e, w)
    | _ =>
        match resolve_all (heap w) masked_data with
        | Some dumped =>
            (Ok tt,
             set_fs w (fs_write path (Readable (Parses (VList dumped))) (fs w)))
        | None =>
            (Raise circular,
             set_fs w (fs_write path (Readable Unparsable) (fs w)))
        end
    end.

(** The object [json.load] builds for an element of the input array, with
    the objects of the containers inside it. *)
Definition load_object (o : json) : M W loc :=
  fun w =>
    match build o (heap w) with
    | (VRef l, h) => (Ok l, set_heap w h)
    | (v, h) => (Ok (length h), set_heap w (h ++ [v]))
    end.

Fixpoint alloc_all (items : list json) : M W (list loc) :=
  match items with
  | [] => ret []
  | o :: rest => l <- load_object o ;; ls <- alloc_all rest ;; ret (l :: ls)
  end.

(** *** Python steps on an object of the store *)

(** [record.copy()] *)
Definition copy_at (record : loc) : M W loc :=
  o <- deref record ;; c <- lift (py_copy o) ;; alloc c.

Definition eval_needs_string : exn :=
  mkExn TypeError "eval() arg 1 must be a string, bytes or code object".

(** [if eval(src, {}, locals)]: the source must be a string. *)
Definition builtin_eval (src : json) (locals : loc) : E W bool :=
  match src with
  | VStr text => py_eval text locals
  | _ => run (raise eval_needs_string)
  end.

(** [item in container] and [container[key] = v] *)
Definition contains_at (item : json) (container : loc) : M W bool :=
  fun w =>
    match nth_error (heap w) container with
    | Some o => (py_contains (heap w) item o, w)
    | None => (Raise (mkExn Exception "no object at this location"), w)
    end.

Definition setitem_at (container : loc) (key v : json) : M W unit :=
  fun w =>
    match nth_error (heap w) container with
    | Some o =>
        match py_setitem (heap w) o key v with
        | Ok o' => (Ok tt, set_heap w (list_set container o' (heap w)))
        | Raise e => (Raise e, w)
        end
    | None => (Raise (mkExn Exception "no object at this location"), w)
    end.

(** *** ConditionalMasker.apply_masking *)

Definition apply_masking (masking_type : json) : M W string :=
  try_catch
    (if py_eq masking_type (VStr "name") then call_fake P_name
     else if py_eq masking_type (VStr "email") then call_fake P_email
     else if py_eq masking_type (VStr "address") then call_fake P_address
     else if py_eq masking_type (VStr "phone_number") then call_fake P_phone_number
     else if py_eq masking_type (VStr "company") then call_fake P_company
     else if py_eq masking_type (VStr "ssn") then call_fake P_ssn
     else if py_eq masking_type (VStr "date") then call_fake P_date
     else if py_eq masking_type (VStr "city") then call_fake P_city
     else if py_eq masking_type (VStr "country") then call_fake P_country
     else if py_eq masking_type (VStr "text") then call_fake P_text
     else if py_eq masking_type (VStr "password") then call_fake P_password
     else log_at WARNING (UnknownMaskingType masking_type) ;; ret "MASKED")
    (fun e => log_at ERROR (MaskingError e) ;; ret "MASKED_ERROR").

(** *** ConditionalMasker.mask_data *)

(** The suite of the [if]: what a rule does once its condition holds. *)
Definition masking_step (rule : json) (masked_record : loc) : M W unit :=
  field_to_mask <- lift (subscript rule "field") ;;
  masking_type <- lift (subscript rule "masking_type") ;;
  present <- contains_at field_to_mask masked_record ;;
  if present then
    masked <- apply_masking masking_type ;;
    setitem_at masked_record field_to_mask (VStr masked)
  else log_at WARNING (FieldNotFound field_to_mask).

(** The suite of the [try] inside the loop over the rules. *)
Definition rule_body (rule : json) (masked_record : loc) : E W unit :=
  condition <~ run (lift (subscript rule "condition")) ;;
  holds <~ builtin_eval condition masked_record ;;
  if holds then run (masking_step rule masked_record) else run (ret tt).

(** The [try] with its two handlers; both log and go on to the next rule.
    An exception that does not derive from [Exception] passes them. *)
Definition attempt_rule (rule : json) (masked_record : loc) : E W unit :=
  try_except (rule_body rule masked_record)
    (fun e =>
       if isinstance e NameError then run (log_at ERROR (CondNameError e))
       else run (log_at ERROR (CondOrMaskError e))).

(** The loop over the rules, for one working copy. *)
Definition apply_rules (rules : list json) (masked_record : loc) : E W unit :=
  for_each_flow rules (fun rule => attempt_rule rule masked_record).

(** The body of the loop over the records, up to the [append]. *)
Definition mask_record (rules : list json) (record : loc) : E W loc :=
  masked_record <~ run (copy_at record) ;;
  apply_rules rules masked_record ;;;
  run (ret masked_record).

Fixpoint mask_loop (rules : list json) (data masked_data : list loc)
  : E W (list loc) :=
  match data with
  | [] => run (ret masked_data)
  | record :: rest =>
      masked_record <~ mask_record rules record ;;
      mask_loop rules rest (masked_data ++ [masked_record])
  end.

(** [mask_data] with [self.config] a loaded rule set; [data] is the list of
    the record objects, the result the list of the new objects. *)
Definition mask_data (rules : list json) (data : list loc) : E W (list loc) :=
  mask_loop rules data [].

(** *** ConditionalMasker.load_config and the constructor *)

Definition rule_ok (rule : json) : bool :=
  match rule with
  | VDict kvs =>
      dict_has "condition" kvs && dict_has "field" kvs
      && dict_has "masking_type" kvs
  | _ => false
  end.

Definition not_a_list : exn :=
  mkExn ValueError "Configuration file must contain a list of rules.".

Definition not_a_rule : exn :=
  mkExn ValueError
    "Each rule must be a dictionary with 'condition', 'field', and 'masking_type' keys.".

(** The suite of the [try] of [load_config].  The rule set is kept as the
    value the file denotes: the engine only reads it. *)
Definition load_config_body (path : string) : M W (option (list json)) :=
  f <- open_read path ;;
  loaded <- json_load f ;;
  match loaded with
  | VList rules =>
      for_each rules (fun rule =>
        if negb (rule_ok rule) then raise not_a_rule else ret tt) ;;
      ret (Some rules)
  | _ => raise not_a_list
  end.

Definition load_config (path : string) : M W (option (list json)) :=
  try_catch (load_config_body path)
    (fun e =>
       if isinstance e FileNotFoundError then
         log_at ERROR (ConfigNotFound path) ;; ret None
       else if isinstance e JSONDecodeError then
         log_at ERROR (ConfigInvalidJSON path) ;; ret None
       else if isinstance e ValueError then
         log_at ERROR (ConfigInvalid e) ;; ret None
       else
         log_at ERROR (ConfigLoadError e) ;; ret None).

(** [Faker()]: the generator object.  Its state is the [gen] of the world,
    which building the object neither reads nor advances. *)
Definition new_faker : M W unit := ret tt.

(** [ConditionalMasker(config_file, input_file, output_file)] *)
Definition init (cfg inp out : string) : M W masker :=
  loaded <- load_config cfg ;;
  new_faker ;;
  ret (mkMasker cfg inp out loaded).

(** *** ConditionalMasker.process_data *)

Definition process_data (self : masker) : E W unit :=
  match config self with
  | None => run (log_at ERROR ConfigLoadFailed)
  | Some rules =>
      try_except
        (f <~ run (open_read (input_file self)) ;;
         loaded <~ run (try_catch (data <- json_load f ;; ret (Some data))
                          (fun e =>
                             if isinstance e JSONDecodeError then
                               log_at ERROR (InputInvalidJSON (input_file self)) ;;
                               ret None
                             else raise e)) ;;
         match loaded with
         | None => run (ret tt)
         | Some (VList items) =>
             data <~ run (alloc_all items) ;;
             masked_data <~ mask_data rules data ;;
             run (write_json (output_file self) masked_data) ;;;
             run (log_at INFO (MaskingComplete (output_file self)))
         | Some _ => run (log_at ERROR InputNotList)
         end)
        (fun e =>
           if isinstance e FileNotFoundError then
             run (log_at ERROR (InputNotFound (input_file self)))
           else run (log_at ERROR (ProcessingError e)))
  end.

(** *** main

    The three paths are the parsed arguments. *)

(** [sys.exit(status)] *)
Definition sys_exit (status : Z) : E W unit :=
  fun w => (Escapes (SystemExit status), w).

Definition main (cfg inp out : string) : E W unit :=
  if negb (endswith (lower cfg) ".json") then
    run (log_at ERROR ConfigNotJsonFile) ;;; sys_exit 1
  else if negb (endswith (lower inp) ".json") then
    run (log_at ERROR InputNotJsonFile) ;;; sys_exit 1
  else if negb (endswith (lower out) ".json") then
    run (log_at ERROR OutputNotJsonFile) ;;; sys_exit 1
  else
    self <~ run (init cfg inp out) ;;
    process_data self.

(** The exit status of the process: 0 when [main] returns, 1 after an
    uncaught exception, that of [SystemExit]; none is determined for the
    other ways of leaving, nor when [main] does not return. *)
Definition exit_status (ending : flow unit * W) : option Z :=
  match fst ending with
  | Normal (Ok _) => Some 0%Z
  | Normal (Raise _) => Some 1%Z
  | Escapes (SystemExit status) => Some status
  | Escapes (BaseException _) => None
  | Diverges => None
  end.

(** *** Vocabulary of the properties *)

(** The object a location names. *)
Definition object_at (w : W) (l : loc) : option json := nth_error (heap w) l.


(** The rule has the string [text] as its condition. *)
Definition condition_text (rule : json) (text : string) : Prop :=
  subscript rule "condition" = Ok (VStr text).

(** What a property may need of the evaluation of a condition.

    The evaluation has no effect: it returns a truth value or raises an
    exception derived from [Exception], and leaves the world as it was. *)
Definition side_effect_free (text : string) : Prop :=
  forall (l : loc) (w : W), exists r, py_eval text l w = (Normal r, w).




(** The evaluation changes no object but the mapping it has as locals: it
    may bind names there, but it leaves alone what the values refer to. *)
Definition confined (text : string) : Prop :=
  forall (l : loc) (w : W) (l' : loc) (o : json),
    l' <> l -> object_at w l' = Some o ->
    object_at (after (py_eval text l) w) l' = Some o.

(** Every condition of the rule set that is a string has property [P]. *)
Definition every_condition (P : string -> Prop) (rules : list json) : Prop :=
  forall rule text, In rule rules -> condition_text rule text -> P text.


(** A rule fires on the record at [l] in world [w] when its condition
    evaluates to a true value there and its target field is one of the
    record's once the condition is evaluated; the result is the target
    field and the masking type. *)
Definition rule_fires (rule : json) (l : loc) (w : W) : option (string * json) :=
  match subscript rule "condition" with
  | Ok (VStr text) =>
      match py_eval text l w with
      | (Normal (Ok true), w2) =>
          match subscript rule "field", subscript rule "masking_type",
                object_at w2 l with
          | Ok (VStr k), Ok mt, Some (VDict cur) =>
              if dict_has k cur then Some (k, mt) else None
          | _, _, _ => None
          end
      | _ => None
      end
  | _ => None
  end.



(** The entry either handler of the [try] in [mask_data] writes to the log. *)
Definition handler_entry (e : exn) : log_entry :=
  if isinstance e NameError then (ERROR, CondNameError e)
  else (ERROR, CondOrMaskError e).

(** A step under the two handlers of the [try] in [mask_data]. *)
Definition guarded (m : M W unit) : M W unit :=
  try_catch m
    (fun e =>
       if isinstance e NameError then log_at ERROR (CondNameError e)
       else log_at ERROR (CondOrMaskError e)).

(** The shape the loader demands of the configuration, in the words of the
    specification: a sequence whose every element is a mapping containing
    [condition], [field] and [masking_type]. *)
Definition has_rule_shape (element : json) : Prop :=
  exists kvs,
    element = VDict kvs
    /\ dict_has "condition" kvs = true
    /\ dict_has "field" kvs = true
    /\ dict_has "masking_type" kvs = true.

Definition is_rule_set (v : json) : Prop :=
  exists rules, v = VList rules /\ Forall has_rule_shape rules.

(** The rule-set source exists, is readable, parses, and has the shape. *)
Definition loadable (files : filesystem) (path : string) : Prop :=
  exists v,
    fs_lookup path files = Some (Readable (Parses v)) /\ is_rule_set v.

(** The extension test of [main]. *)
Definition has_json_extension (path : string) : bool :=
  endswith (lower path) ".json".

(** The whole program: the constructor, then [process_data]. *)
Definition construct_and_process (cfg inp out : string) : E W unit :=
  self <~ run (init cfg inp out) ;; process_data self.

(** The recognized masking categories and their providers. *)
Definition categories : list (string * provider) :=
  [("name", P_name); ("email", P_email); ("address", P_address);
   ("phone_number", P_phone_number); ("company", P_company); ("ssn", P_ssn);
   ("date", P_date); ("city", P_city); ("country", P_country);
   ("text", P_text); ("password", P_password)].

Fixpoint category_provider (table : list (string * provider)) (name : string)
  : option provider :=
  match table with
  | [] => None
  | (n, p) :: rest => if String.eqb name n then Some p else category_provider rest name
  end.

Definition category_names : list string :=
  ["name"; "email"; "address"; "phone_number"; "company"; "ssn"; "date";
   "city"; "country"; "text"; "password"].

Definition recognized (masking_type : json) : option provider :=
  match masking_type with
  | VStr name => category_provider categories name
  | _ => None
  end.

(** *** Vocabulary of the further properties *)

(** The JSON types without a [copy] method. *)
Definition is_scalar (o : json) : bool :=
  match o with
  | VDict _ | VList _ => false
  | _ => true
  end.

(** No rule of the set has a condition that holds of the record at [l] in
    world [w]: each condition is a string whose evaluation there returns
    false and changes nothing. *)
Definition none_holds (rules : list json) (l : loc) (w : W) : Prop :=
  forall rule, In rule rules ->
    exists text,
      condition_text rule text /\ py_eval text l w = (Ok false, w).

(** The entry the outer handlers of [process_data] write for [e]. *)
Definition process_data_entry (self : masker) (e : exn) : log_entry :=
  if isinstance e FileNotFoundError then (ERROR, InputNotFound (input_file self))
  else (ERROR, ProcessingError e).

(** The entry the handlers of [load_config] write for [e]. *)
Definition load_config_entry (path : string) (e : exn) : log_entry :=
  if isinstance e FileNotFoundError then (ERROR, ConfigNotFound path)
  else if isinstance e JSONDecodeError then (ERROR, ConfigInvalidJSON path)
  else if isinstance e ValueError then (ERROR, ConfigInvalid e)
  else (ERROR, ConfigLoadError e).

(** *** Lists, dicts and the store *)


Lemma list_set_middle (h1 h2 : list json) (x v : json) :
  list_set (length h1) v (h1 ++ x :: h2) = h1 ++ v :: h2.
Proof.
  induction h1 as [|y h1 IH]; simpl; [reflexivity | now rewrite IH].
Qed.

Lemma list_set_length (n : nat) (v : json) (xs : list json) :
  length (list_set n v xs) = length xs.
Proof.
  revert n; induction xs as [|x xs IH]; intros [|n]; simpl; auto.
Qed.



Lemma dict_has_get (k : string) (kvs : pydict) :
  dict_has k kvs = true <-> exists v, dict_get k kvs = Some v.
Proof.
  unfold dict_has. destruct (dict_get k kvs) as [v|].
  - split; [eauto | reflexivity].
  - split; [discriminate | intros [v Hv]; discriminate].
Qed.




(** *** apply_masking *)

Lemma apply_masking_dispatch (masking_type : json) :
  apply_masking masking_type =
  try_catch
    (match recognized masking_type with
     | Some p => call_fake p
     | None => log_at WARNING (UnknownMaskingType masking_type) ;; ret "MASKED"
     end)
    (fun e => log_at ERROR (MaskingError e) ;; ret "MASKED_ERROR").
Proof.
  unfold apply_masking, recognized, categories.
  destruct masking_type as [| b | z | s | xs | kvs | l]; simpl;
    try reflexivity.
  repeat match goal with
         | |- context [String.eqb s ?x] =>
             destruct (String.eqb s x); [reflexivity|]
         end.
  reflexivity.
Qed.

Lemma apply_masking_cases (masking_type : json) (w : W) :
  match recognized masking_type with
  | None =>
      apply_masking masking_type w =
      (Ok "MASKED", add_log w (WARNING, UnknownMaskingType masking_type))
  | Some p =>
      match fake p (gen w) with
      | (Ok s, g) => apply_masking masking_type w = (Ok s, set_gen w g)
      | (Raise e, g) =>
          apply_masking masking_type w =
          (Ok "MASKED_ERROR", add_log (set_gen w g) (ERROR, MaskingError e))
      end
  end.
Proof.
  rewrite apply_masking_dispatch.
  destruct (recognized masking_type) as [p|]; [|reflexivity].
  unfold try_catch, call_fake.
  destruct (fake p (gen w)) as [[s|e] g]; reflexivity.
Qed.

Lemma recognized_none (masking_type : json) :
  (forall name, In name category_names -> masking_type <> VStr name) ->
  recognized masking_type = None.
Proof.
  intros Hout.
  destruct masking_type as [| b | z | s | xs | kvs | l]; try reflexivity.
  unfold recognized, categories. simpl.
  repeat match goal with
         | |- context [String.eqb s ?x] =>
             let E := fresh "E" in
             destruct (String.eqb s x) eqn:E;
             [ apply String.eqb_eq in E;
               exfalso; apply (Hout x);
               [ unfold category_names;
                 repeat first [left; reflexivity | right]
               | now rewrite E ]
             | clear E ]
         end.
  reflexivity.
Qed.

(** The store and the files are out of reach of [apply_masking], and it
    always returns a string. *)
Lemma apply_masking_returns (masking_type : json) (w : W) :
  exists s w',
    apply_masking masking_type w = (Ok s, w')
    /\ heap w' = heap w /\ fs w' = fs w.
Proof.
  pose proof (apply_masking_cases masking_type w) as H.
  destruct (recognized masking_type) as [p|].
  - destruct (fake p (gen w)) as [[s|e] g]; rewrite H; eauto.
  - rewrite H; eauto.
Qed.

(** C6. [apply_masking] returns a string in every world and for every
    masking type, whatever the generator does; a masking type outside the
    eleven recognized names gives ['MASKED'] (and a warning in the log); a
    recognized name whose provider raises gives ['MASKED_ERROR'] (and an
    error in the log) instead of the exception. *)
Theorem apply_masking_total_with_sentinels :
  forall (masking_type : json) (w : W),
    (exists s w', apply_masking masking_type w = (Ok s, w'))
    /\ ((forall name, In name category_names -> masking_type <> VStr name) ->
        apply_masking masking_type w =
        (Ok "MASKED", add_log w (WARNING, UnknownMaskingType masking_type)))
    /\ (forall name p e g,
          In name category_names ->
          masking_type = VStr name ->
          category_provider categories name = Some p ->
          fake p (gen w) = (Raise e, g) ->
          apply_masking masking_type w =
          (Ok "MASKED_ERROR", add_log (set_gen w g) (ERROR, MaskingError e))).
Proof.
  intros masking_type w. split; [|split].
  - destruct (apply_masking_returns masking_type w) as (s & w' & H & _).
    eauto.
  - intros Hout.
    pose proof (apply_masking_cases masking_type w) as H.
    now rewrite (recognized_none _ Hout) in H.
  - intros name p e g _ -> Hp Hfake.
    pose proof (apply_masking_cases (VStr name) w) as H.
    change (recognized (VStr name)) with (category_provider categories name) in H.
    rewrite Hp, Hfake in H. exact H.
Qed.

(** *** The store between two worlds *)












(** *** One rule on one working copy *)

Lemma handler_logs (e : exn) (w : W) :
  (if isinstance e NameError then run (log_at ERROR (CondNameError e))
   else run (log_at ERROR (CondOrMaskError e))) w
  = (Normal (Ok tt), add_log w (handler_entry e)).
Proof.
  unfold handler_entry. destruct (isinstance e NameError); reflexivity.
Qed.

Lemma guarded_cases (m : M W unit) (w : W) :
  guarded m w =
  match m w with
  | (Ok a, w') => (Ok a, w')
  | (Raise e, w') => (Ok tt, add_log w' (handler_entry e))
  end.
Proof.
  unfold guarded, try_catch, handler_entry.
  destruct (m w) as [[a|e] w']; [reflexivity|].
  destruct (isinstance e NameError); reflexivity.
Qed.

Lemma guarded_returns (m : M W unit) (w : W) :
  exists w', guarded m w = (Ok tt, w').
Proof.
  rewrite guarded_cases. destruct (m w) as [[[]|e] w']; eauto.
Qed.

(** The [try] statement, by what the evaluation of the condition comes
    to. *)
Lemma attempt_rule_text (rule : json) (text : string) (l : loc) (w : W) :
  condition_text rule text ->
  attempt_rule rule l w =
  match py_eval text l w with
  | (Normal (Ok true), w2) => run (guarded (masking_step rule l)) w2
  | (Normal (Ok false), w2) => (Normal (Ok tt), w2)
  | (Normal (Raise e), w2) => (Normal (Ok tt), add_log w2 (handler_entry e))
  | (Escapes b, w2) => (Escapes b, w2)
  | (Diverges, w2) => (Diverges, w2)
  end.
Proof.
  unfold condition_text. intros Hc.
  unfold attempt_rule, rule_body, try_except, bind_flow, run, lift.
  rewrite Hc. cbn [builtin_eval].
  destruct (py_eval text l w) as [[[[|]|e]|b|] w2]; try reflexivity.
  - rewrite guarded_cases.
    destruct (masking_step rule l w2) as [[[]|e] w3]; [reflexivity|].
    apply handler_logs.
  - apply handler_logs.
Qed.




(** The suite of the [if] on a record: the target field, when present,
    receives the string [apply_masking] returns. *)
Lemma masking_step_on_record (rule : json) (l : loc) (w : W) (cur : pydict)
      (k : string) (mt : json) :
  object_at w l = Some (VDict cur) ->
  subscript rule "field" = Ok (VStr k) ->
  subscript rule "masking_type" = Ok mt ->
  if dict_has k cur then
    exists s w0,
      apply_masking mt w = (Ok s, w0)
      /\ masking_step rule l w =
         (Ok tt,
          set_heap w0 (list_set l (VDict (dict_set k (VStr s) cur)) (heap w0)))
  else
    masking_step rule l w = (Ok tt, add_log w (WARNING, FieldNotFound (VStr k))).
Proof.
  unfold object_at. intros Ho Hf Hmt.
  unfold masking_step, bind, lift. rewrite Hf, Hmt.
  unfold contains_at. rewrite Ho. cbn [py_contains].
  destruct (dict_has k cur); [|reflexivity].
  destruct (apply_masking_returns mt w) as (s & w0 & Hm & Hheap & _).
  exists s, w0. split; [exact Hm|]. rewrite Hm.
  unfold setitem_at. rewrite Hheap, Ho. reflexivity.
Qed.




Lemma every_condition_app (P : string -> Prop) (pre post : list json) :
  every_condition P (pre ++ post) ->
  every_condition P pre /\ every_condition P post.
Proof.
  intros H. split; intros r text Hin Hc; apply (H r text); auto;
    apply in_or_app; auto.
Qed.


Lemma side_effect_free_confined (text : string) :
  side_effect_free text -> confined text.
Proof.
  intros H l w l' o _ Ho. destruct (H l w) as [r Hr].
  unfold after. now rewrite Hr.
Qed.



(** *** The loop over the rules *)

Lemma apply_rules_app (pre post : list json) (l : loc) (w : W) :
  apply_rules (pre ++ post) l w =
  (apply_rules pre l ;;; apply_rules post l) w.
Proof.
  unfold apply_rules. revert w.
  induction pre as [|r pre IH]; intros w; simpl.
  - unfold bind_flow, run, ret.
    destruct (for_each_flow post (fun rule => attempt_rule rule l) w)
      as [[[[]|]| |] w']; reflexivity.
  - unfold bind_flow in *.
    destruct (attempt_rule r l w) as [[[[]|e]|b|] w1]; try reflexivity.
    apply IH.
Qed.

Lemma apply_rules_cons (rule : json) (rules : list json) (l : loc) (w w1 : W) :
  attempt_rule rule l w = (Normal (Ok tt), w1) ->
  apply_rules (rule :: rules) l w = apply_rules rules l w1.
Proof.
  intros H. unfold apply_rules. simpl. unfold bind_flow. now rewrite H.
Qed.

Lemma apply_rules_snoc (pre : list json) (rule : json) (l : loc) (w w1 : W) :
  apply_rules pre l w = (Normal (Ok tt), w1) ->
  apply_rules (pre ++ [rule]) l w = attempt_rule rule l w1.
Proof.
  intros H. rewrite apply_rules_app. unfold bind_flow. rewrite H.
  unfold apply_rules. simpl. unfold bind_flow, run, ret.
  destruct (attempt_rule rule l w1) as [[[[]|]| |] w']; reflexivity.
Qed.



(** *** One record, then all of them *)

Lemma copy_at_copy (w : W) (record : loc) (o : json) :
  object_at w record = Some o -> is_scalar o = false ->
  copy_at record w = (Ok (length (heap w)), set_heap w (heap w ++ [o])).
Proof.
  unfold object_at, copy_at, bind, deref, lift, alloc. intros -> Hs.
  destruct o; try discriminate; reflexivity.
Qed.


Lemma mask_record_unfold (rules : list json) (record : loc) (w : W) (o : json) :
  object_at w record = Some o -> is_scalar o = false ->
  mask_record rules record w =
  (apply_rules rules (length (heap w)) ;;; run (ret (length (heap w))))
    (set_heap w (heap w ++ [o])).
Proof.
  intros Ho Hs. unfold mask_record, bind_flow at 1, run at 1.
  rewrite (copy_at_copy w record o Ho Hs). reflexivity.
Qed.

Lemma mask_record_inv (rules : list json) (record masked : loc) (w w' : W) :
  mask_record rules record w = (Normal (Ok masked), w') ->
  exists o,
    object_at w record = Some o /\ is_scalar o = false
    /\ masked = length (heap w)
    /\ apply_rules rules masked (set_heap w (heap w ++ [o]))
       = (Normal (Ok tt), w').
Proof.
  unfold mask_record, bind_flow, run, copy_at, bind, deref, lift, alloc,
    object_at.
  destruct (nth_error (heap w) record) as [o|]; [|discriminate].
  destruct o; simpl; try discriminate;
    match goal with
    | |- context [apply_rules rules ?m ?w0] =>
        destruct (apply_rules rules m w0) as [[[[]|]| |] w1] eqn:Hrun;
        try discriminate
    end;
    intros H; injection H as <- <-; eexists; repeat split; auto.
Qed.

Lemma mask_record_of_loop (rules : list json) (record : loc) (w w' : W)
      (o : json) :
  object_at w record = Some o -> is_scalar o = false ->
  apply_rules rules (length (heap w)) (set_heap w (heap w ++ [o]))
  = (Normal (Ok tt), w') ->
  mask_record rules record w = (Normal (Ok (length (heap w))), w').
Proof.
  intros Ho Hs Hrun. rewrite (mask_record_unfold _ _ _ _ Ho Hs).
  unfold bind_flow. rewrite Hrun. reflexivity.
Qed.

(** The rules after a prefix start from the working copy the prefix
    leaves. *)
Lemma mask_record_extend (pre post : list json) (record masked : loc)
      (w w1 : W) :
  mask_record pre record w = (Normal (Ok masked), w1) ->
  mask_record (pre ++ post) record w =
  (apply_rules post masked ;;; run (ret masked)) w1.
Proof.
  intros H.
  destruct (mask_record_inv _ _ _ _ _ H) as (o & Ho & Hs & -> & Hrun).
  rewrite (mask_record_unfold _ _ _ _ Ho Hs).
  unfold bind_flow at 1. rewrite apply_rules_app.
  unfold bind_flow at 1. rewrite Hrun. reflexivity.
Qed.

(** *** Conditions that come back *)









(** *** Conditions confined to their locals *)









(** *** A rule after a prefix of the rule set *)


Lemma mask_record_cons (pre : list json) (rule : json) (post : list json)
      (record masked : loc) (w w1 : W) :
  mask_record pre record w = (Normal (Ok masked), w1) ->
  mask_record (pre ++ rule :: post) record w =
  (attempt_rule rule masked ;;; apply_rules post masked ;;; run (ret masked)) w1.
Proof.
  intros H. rewrite (mask_record_extend _ (rule :: post) _ _ _ _ H).
  unfold apply_rules, bind_flow. simpl. unfold bind_flow.
  destruct (attempt_rule rule masked w1) as [[[[]|]| |] w']; reflexivity.
Qed.







(** *** Loading the rule set, and the program around the engine *)

Lemma rule_ok_shape (rule : json) :
  rule_ok rule = true <-> has_rule_shape rule.
Proof.
  unfold rule_ok, has_rule_shape. split.
  - destruct rule as [| | | | |kvs|]; try discriminate.
    intros H. apply andb_prop in H. destruct H as [H H3].
    apply andb_prop in H. destruct H as [H1 H2].
    exists kvs. auto.
  - intros (kvs & -> & H1 & H2 & H3). now rewrite H1, H2, H3.
Qed.

(** The validation loop of [load_config] stops at the first element that
    is not a rule. *)
Lemma validation_loop (rules : list json) (w : W) :
  for_each rules (fun rule =>
    if negb (rule_ok rule) then raise not_a_rule else ret tt) w
  = if forallb rule_ok rules then (Ok tt, w) else (Raise not_a_rule, w).
Proof.
  induction rules as [|r rules IH]; simpl; [reflexivity|].
  unfold bind. destruct (rule_ok r); simpl; [exact IH | reflexivity].
Qed.

Lemma forallb_rule_ok (rules : list json) :
  forallb rule_ok rules = true <-> Forall has_rule_shape rules.
Proof.
  rewrite forallb_forall, Forall_forall.
  split; intros H r Hr; apply rule_ok_shape; auto.
Qed.

(** The four handlers of [load_config] all log one error and return
    [None]. *)
Lemma load_config_handler (path : string) (e : exn) (w : W) :
  (if isinstance e FileNotFoundError then
     log_at ERROR (ConfigNotFound path) ;; ret None
   else if isinstance e JSONDecodeError then
     log_at ERROR (ConfigInvalidJSON path) ;; ret None
   else if isinstance e ValueError then
     log_at ERROR (ConfigInvalid e) ;; ret None
   else
     log_at ERROR (ConfigLoadError e) ;; ret (@None (list json))) w
  = (Ok None, add_log w (load_config_entry path e)).
Proof.
  unfold load_config_entry.
  destruct (isinstance e FileNotFoundError); [reflexivity|].
  destruct (isinstance e JSONDecodeError); [reflexivity|].
  destruct (isinstance e ValueError); reflexivity.
Qed.

Lemma load_config_entry_error (path : string) (e : exn) :
  exists why, load_config_entry path e = (ERROR, why).
Proof.
  unfold load_config_entry.
  destruct (isinstance e FileNotFoundError); [eauto|].
  destruct (isinstance e JSONDecodeError); [eauto|].
  destruct (isinstance e ValueError); eauto.
Qed.

Lemma load_config_body_cases (path : string) (w : W) :
  load_config_body path w =
  match fs_lookup path (fs w) with
  | None => (Raise (mkExn FileNotFoundError path), w)
  | Some (Denied e) => (Raise e, w)
  | Some (Readable Unparsable) =>
      (Raise (mkExn JSONDecodeError "Expecting value"), w)
  | Some (Readable (Fails e)) => (Raise e, w)
  | Some (Readable (Parses (VList rules))) =>
      if forallb rule_ok rules then (Ok (Some rules), w)
      else (Raise not_a_rule, w)
  | Some (Readable (Parses _)) => (Raise not_a_list, w)
  end.
Proof.
  unfold load_config_body, bind, open_read.
  destruct (fs_lookup path (fs w)) as [[[v| |e0]|e]|]; try reflexivity.
  destruct v; try reflexivity.
  cbn [json_load]. unfold ret at 1. cbv beta iota.
  rewrite validation_loop. destruct (forallb rule_ok xs); reflexivity.
Qed.

Lemma load_config_cases (path : string) (w : W) :
  (exists rules,
      fs_lookup path (fs w) = Some (Readable (Parses (VList rules)))
      /\ Forall has_rule_shape rules
      /\ load_config path w = (Ok (Some rules), w))
  \/ (~ loadable (fs w) path
      /\ exists why, load_config path w = (Ok None, add_log w (ERROR, why))).
Proof.
  assert (Hfail : forall e,
             load_config_body path w = (Raise e, w) ->
             exists why, load_config path w = (Ok None, add_log w (ERROR, why))).
  { intros e He. unfold load_config, try_catch. rewrite He.
    rewrite load_config_handler.
    destruct (load_config_entry_error path e) as [why ->]. eauto. }
  unfold loadable, is_rule_set.
  pose proof (load_config_body_cases path w) as Hbody.
  destruct (fs_lookup path (fs w)) as [[[v| |e0]|e]|] eqn:Hfile.
  - destruct v as [| | | |rules| |];
      try (right; split;
           [ intros (v & Hv & rules & Hlist & _); congruence
           | now apply (Hfail not_a_list) ]).
    destruct (forallb rule_ok rules) eqn:Hok.
    + left. exists rules. apply forallb_rule_ok in Hok.
      repeat split; auto. unfold load_config, try_catch. now rewrite Hbody.
    + right. split; [|now apply (Hfail not_a_rule)].
      intros (v & Hv & rules' & Hlist & Hshape).
      injection Hv as <-. injection Hlist as <-.
      apply forallb_rule_ok in Hshape. congruence.
  - right. split; [|eapply Hfail; exact Hbody].
    intros (v & Hv & _). discriminate.
  - right. split; [|eapply Hfail; exact Hbody].
    intros (v & Hv & _). discriminate.
  - right. split; [|eapply Hfail; exact Hbody].
    intros (v & Hv & _). discriminate.
  - right. split; [|eapply Hfail; exact Hbody].
    intros (v & Hv & _). discriminate.
Qed.

Lemma load_config_ok (path : string) (w : W) (rules : list json) :
  fs_lookup path (fs w) = Some (Readable (Parses (VList rules))) ->
  Forall has_rule_shape rules ->
  load_config path w = (Ok (Some rules), w).
Proof.
  intros Hfile Hshape.
  unfold load_config, try_catch. rewrite load_config_body_cases, Hfile.
  apply forallb_rule_ok in Hshape. now rewrite Hshape.
Qed.

Lemma init_loaded (cfg inp out : string) (w w' : W)
      (loaded : option (list json)) :
  load_config cfg w = (Ok loaded, w') ->
  init cfg inp out w = (Ok (mkMasker cfg inp out loaded), w').
Proof.
  intros H. unfold init, bind. rewrite H. reflexivity.
Qed.

(** C7. When the rule-set source is missing, unreadable, not parsable, not
    a sequence, or has an element that is not a mapping with the three keys,
    [load_config] logs an error and returns [None], not a part of the rules;
    [process_data] then logs and returns at once: the store, the generator
    and the files are as before, so nothing is masked and nothing written.
    And when [load_config] does return a rule set, it is the whole sequence
    of the file, every element with the three keys. *)
Theorem load_config_all_or_nothing :
  forall (cfg inp out : string) (w : W),
    (~ loadable (fs w) cfg ->
     exists why,
       load_config cfg w = (Ok None, add_log w (ERROR, why))
       /\ construct_and_process cfg inp out w =
          (Ok tt, add_log (add_log w (ERROR, why)) (ERROR, ConfigLoadFailed))
       /\ fs (after (construct_and_process cfg inp out) w) = fs w
       /\ gen (after (construct_and_process cfg inp out) w) = gen w
       /\ heap (after (construct_and_process cfg inp out) w) = heap w)
    /\ (forall rules,
          outcome (load_config cfg) w = Ok (Some rules) ->
          fs_lookup cfg (fs w) = Some (Readable (Parses (VList rules)))
          /\ Forall has_rule_shape rules).
Proof.
  intros cfg inp out w. split.
  - intros Hbad.
    destruct (load_config_cases cfg w)
      as [(rules & Hfile & Hshape & _) | (_ & why & Hload)].
    + exfalso. apply Hbad. exists (VList rules). split; [exact Hfile|].
      exists rules. auto.
    + exists why. split; [exact Hload|].
      assert (Hrun : construct_and_process cfg inp out w =
                (Normal (Ok tt),
                 add_log (add_log w (ERROR, why)) (ERROR, ConfigLoadFailed))).
      { unfold construct_and_process, bind_flow, run.
        rewrite (init_loaded _ _ _ _ _ _ Hload). reflexivity. }
      split; [exact Hrun|]. unfold after. rewrite Hrun. auto.
  - intros rules. unfold outcome.
    destruct (load_config_cases cfg w)
      as [(rules' & Hfile & Hshape & Hload) | (_ & why & Hload)];
      rewrite Hload; simpl; intros [= <-]; auto.
Qed.

(** *** process_data before it masks *)

Lemma process_data_handler (self : masker) (e : exn) (w : W) :
  (if isinstance e FileNotFoundError then
     run (log_at ERROR (InputNotFound (input_file self)))
   else run (log_at ERROR (ProcessingError e))) w
  = (Normal (Ok tt), add_log w (process_data_entry self e)).
Proof.
  unfold process_data_entry.
  destruct (isinstance e FileNotFoundError); reflexivity.
Qed.


(** With a rule set loaded, an input that is not there, cannot be read,
    is not JSON or is not an array ends [process_data] with one entry in
    the log, before anything is evaluated. *)
Lemma process_data_input_cases (self : masker) (w : W) (rules : list json) :
  config self = Some rules ->
  match fs_lookup (input_file self) (fs w) with
  | None =>
      process_data self w =
      (Normal (Ok tt), add_log w (ERROR, InputNotFound (input_file self)))
  | Some (Denied e) =>
      process_data self w =
      (Normal (Ok tt), add_log w (process_data_entry self e))
  | Some (Readable Unparsable) =>
      process_data self w =
      (Normal (Ok tt), add_log w (ERROR, InputInvalidJSON (input_file self)))
  | Some (Readable (Fails e)) =>
      process_data self w =
      (Normal (Ok tt),
       add_log w (if isinstance e JSONDecodeError
                  then (ERROR, InputInvalidJSON (input_file self))
                  else process_data_entry self e))
  | Some (Readable (Parses (VList items))) => True
  | Some (Readable (Parses _)) =>
      process_data self w = (Normal (Ok tt), add_log w (ERROR, InputNotList))
  end.
Proof.
  intros Hcfg. unfold process_data. rewrite Hcfg.
  unfold try_except, bind_flow, run, open_read.
  destruct (fs_lookup (input_file self) (fs w)) as [[[v| |e0]|e]|].
  - destruct v; try exact I; reflexivity.
  - reflexivity.
  - cbn [json_load]. unfold try_catch, bind, raise.
    destruct (isinstance e0 JSONDecodeError); [reflexivity|].
    apply process_data_handler.
  - apply process_data_handler.
  - reflexivity.
Qed.



(** *** Further properties of the rule step *)

Lemma recognized_label (p : provider) :
  recognized (VStr (provider_label p)) = Some p.
Proof.
  destruct p; reflexivity.
Qed.

(** X1. Each of the eleven category names is sent to the Faker provider of
    that name: the value returned is the provider's, and only the generator
    moves; when that provider raises, the result is ['MASKED_ERROR'] and the
    error is logged. *)
Theorem apply_masking_dispatches_by_name :
  forall (p : provider) (w : W),
    apply_masking (VStr (provider_label p)) w =
    match fake p (gen w) with
    | (Ok s, g) => (Ok s, set_gen w g)
    | (Raise e, g) =>
        (Ok "MASKED_ERROR", add_log (set_gen w g) (ERROR, MaskingError e))
    end.
Proof.
  intros p w.
  pose proof (apply_masking_cases (VStr (provider_label p)) w) as H.
  rewrite recognized_label in H.
  destruct (fake p (gen w)) as [[s|e] g]; exact H.
Qed.

(** X2. A rule whose [condition] is not a string (a JSON boolean, number,
    null, array or object) never applies: [eval] refuses it with a
    [TypeError], which the second handler logs; the record, the generator
    and the files stay as they are. *)
Theorem non_string_condition_is_skipped :
  forall (rule c : json) (l : loc) (w : W) (cur : pydict),
    object_at w l = Some (VDict cur) ->
    subscript rule "condition" = Ok c ->
    (forall text, c <> VStr text) ->
    attempt_rule rule l w =
    (Ok tt, add_log w (ERROR, CondOrMaskError eval_needs_string)).
Proof.
  intros rule c l w cur Hobj Hc Hnot.
  unfold attempt_rule, rule_body, try_except, bind_flow, run, lift.
  rewrite Hc.
  destruct c; try reflexivity. exfalso. now apply (Hnot s).
Qed.

(** X3. A rule whose condition holds but whose target field the record
    does not have once the condition is evaluated logs one warning and
    does nothing else: no value is generated and the field is not
    created. *)
Theorem absent_target_only_warns :
  forall (rule : json) (text : string) (l : loc) (w w2 : W) (cur : pydict)
         (k : string) (mt : json),
    condition_text rule text ->
    py_eval text l w = (Ok true, w2) ->
    object_at w2 l = Some (VDict cur) ->
    subscript rule "field" = Ok (VStr k) ->
    subscript rule "masking_type" = Ok mt ->
    dict_has k cur = false ->
    attempt_rule rule l w =
    (Ok tt, add_log w2 (WARNING, FieldNotFound (VStr k))).
Proof.
  intros rule text l w w2 cur k mt Hc He Ho Hf Hmt Hk.
  rewrite (attempt_rule_text _ _ _ _ Hc), He.
  pose proof (masking_step_on_record rule l w2 cur k mt Ho Hf Hmt) as Hs.
  rewrite Hk in Hs. unfold run. rewrite guarded_cases, Hs. reflexivity.
Qed.

Lemma apply_rules_none_holds (rules : list json) (l : loc) (w : W) :
  none_holds rules l w -> apply_rules rules l w = (Normal (Ok tt), w).
Proof.
  induction rules as [|r rules IH]; intros Hnone; [reflexivity|].
  destruct (Hnone r (or_introl eq_refl)) as (text & Hc & He).
  assert (Hstep : attempt_rule r l w = (Normal (Ok tt), w)).
  { rewrite (attempt_rule_text _ _ _ _ Hc), He. reflexivity. }
  rewrite (apply_rules_cons _ _ _ _ _ Hstep). apply IH.
  intros r' Hin. apply Hnone. now right.
Qed.

(** X4. When no condition of the rule set holds of the copy of a record (an
    empty rule set included), each evaluating to false without changing
    anything, [mask_record] changes nothing but the store, which gains a
    copy with exactly the record's fields and values; no value is generated
    and nothing is logged. *)
Theorem unmatched_record_is_copied_verbatim :
  forall (rules : list json) (record : loc) (w : W) (fields : pydict),
    object_at w record = Some (VDict fields) ->
    none_holds rules (length (heap w))
      (set_heap w (heap w ++ [VDict fields])) ->
    mask_record rules record w =
    (Ok (length (heap w)), set_heap w (heap w ++ [VDict fields])).
Proof.
  intros rules record w fields Ho Hnone.
  apply mask_record_of_loop with (VDict fields); auto.
  now apply apply_rules_none_holds.
Qed.


(** *** Further properties of loading and of the program *)


(** X6. A configuration file that holds a sequence of mappings, each with
    the three keys, is returned whole and in order, extra keys and all, and
    loading it changes nothing: no entry is logged. *)
Theorem load_config_returns_whole_rule_set :
  forall (path : string) (w : W) (rules : list json),
    fs_lookup path (fs w) = Some (Readable (Parses (VList rules))) ->
    Forall has_rule_shape rules ->
    load_config path w = (Ok (Some rules), w).
Proof.
  intros path w rules. apply load_config_ok.
Qed.

Lemma json_error_is_value_error (c : exn_class) :
  issubclass c JSONDecodeError = true -> issubclass c ValueError = true.
Proof.
  induction c as [| | | | | | | | | | | | | name base IH]; simpl;
    try discriminate; try reflexivity.
  intros H. now apply IH.
Qed.

(** X7. Each way of failing to load has its own log entry: a missing file,
    text that is not JSON, JSON that is not a sequence, a sequence with an
    element that is not a rule; and, when opening or reading the file
    raises, an entry by the class of the exception: a [ValueError] that is
    not a JSON error (bytes that are not text raise [UnicodeDecodeError])
    is logged as an invalid configuration, and anything else that is not a
    [FileNotFoundError] (a refusal of the system, nesting too deep) as an
    error loading the configuration. *)
Theorem load_config_failure_messages :
  forall (path : string) (w : W),
    (fs_lookup path (fs w) = None ->
     load_config path w = (Ok None, add_log w (ERROR, ConfigNotFound path)))
    /\ (fs_lookup path (fs w) = Some (Readable Unparsable) ->
        load_config path w =
        (Ok None, add_log w (ERROR, ConfigInvalidJSON path)))
    /\ (forall v,
          fs_lookup path (fs w) = Some (Readable (Parses v)) ->
          (forall rules, v <> VList rules) ->
          load_config path w =
          (Ok None, add_log w (ERROR, ConfigInvalid not_a_list)))
    /\ (forall rules,
          fs_lookup path (fs w) = Some (Readable (Parses (VList rules))) ->
          ~ Forall has_rule_shape rules ->
          load_config path w =
          (Ok None, add_log w (ERROR, ConfigInvalid not_a_rule)))
    /\ (forall e,
          fs_lookup path (fs w) = Some (Denied e)
          \/ fs_lookup path (fs w) = Some (Readable (Fails e)) ->
          isinstance e FileNotFoundError = false ->
          isinstance e JSONDecodeError = false ->
          isinstance e ValueError = true ->
          load_config path w =
          (Ok None, add_log w (ERROR, ConfigInvalid e)))
    /\ (forall e,
          fs_lookup path (fs w) = Some (Denied e)
          \/ fs_lookup path (fs w) = Some (Readable (Fails e)) ->
          isinstance e FileNotFoundError = false ->
          isinstance e ValueError = false ->
          load_config path w =
          (Ok None, add_log w (ERROR, ConfigLoadError e))).
Proof.
  intros path w.
  unfold load_config, try_catch. rewrite load_config_body_cases.
  repeat split.
  - intros ->. reflexivity.
  - intros ->. reflexivity.
  - intros v -> Hnot.
    destruct v; try reflexivity. exfalso. now apply (Hnot xs).
  - intros rules -> Hbad.
    destruct (forallb rule_ok rules) eqn:Hok; [|reflexivity].
    exfalso. apply Hbad. now apply forallb_rule_ok.
  - intros e [-> | ->] H1 H2 H3; now rewrite H1, H2, H3.
  - intros e [-> | ->] H1 H3;
      (destruct (isinstance e JSONDecodeError) eqn:H2;
       [ apply json_error_is_value_error in H2; unfold isinstance in H3;
         congruence
       | now rewrite H1, H3 ]).
Qed.

(** X11. With a rule set loaded, an input file that is missing, is not
    JSON, or is JSON but not an array stops [process_data] with one error
    entry of its own kind, and so does an input whose reading raises
    (bytes that are not text): the general handler logs the exception.
    No condition has been evaluated then; nothing is masked and nothing is
    written. *)
Theorem process_data_input_failures :
  forall (self : masker) (w : W) (rules : list json),
    config self = Some rules ->
    (fs_lookup (input_file self) (fs w) = None ->
     process_data self w =
     (Ok tt, add_log w (ERROR, InputNotFound (input_file self))))
    /\ (fs_lookup (input_file self) (fs w) = Some (Readable Unparsable) ->
        process_data self w =
        (Ok tt, add_log w (ERROR, InputInvalidJSON (input_file self))))
    /\ (forall v,
          fs_lookup (input_file self) (fs w) = Some (Readable (Parses v)) ->
          (forall items, v <> VList items) ->
          process_data self w = (Ok tt, add_log w (ERROR, InputNotList)))
    /\ (forall e,
          fs_lookup (input_file self) (fs w) = Some (Readable (Fails e)) ->
          isinstance e JSONDecodeError = false ->
          isinstance e FileNotFoundError = false ->
          process_data self w = (Ok tt, add_log w (ERROR, ProcessingError e))).
Proof.
  intros self w rules Hcfg.
  pose proof (process_data_input_cases self w rules Hcfg) as H.
  repeat split.
  - intros Hfile. now rewrite Hfile in H.
  - intros Hfile. now rewrite Hfile in H.
  - intros v Hfile Hnot. rewrite Hfile in H.
    destruct v; try exact H. exfalso. now apply (Hnot xs).
  - intros e Hfile H1 H2. rewrite Hfile, H1 in H. rewrite H.
    unfold process_data_entry. now rewrite H2.
Qed.

(** *** The objects mask_data returns *)





(** *** The extension test *)

Lemma string_length_append (a b : string) :
  String.length (a ++ b)%string = String.length a + String.length b.
Proof.
  induction a as [|c a IH]; simpl; auto.
Qed.

Lemma substring_whole (b : string) :
  substring 0 (String.length b) b = b.
Proof.
  induction b as [|c b IH]; simpl; [reflexivity | now rewrite IH].
Qed.

Lemma substring_after (a b : string) :
  substring (String.length a) (String.length b) (a ++ b)%string = b.
Proof.
  induction a as [|c a IH]; simpl; [apply substring_whole | exact IH].
Qed.

Lemma substring_split (s : string) :
  forall n, n <= String.length s ->
    s = (substring 0 n s ++ substring n (String.length s - n) s)%string.
Proof.
  induction s as [|c s IH]; intros [|n] Hn; simpl in *.
  - reflexivity.
  - lia.
  - now rewrite substring_whole.
  - f_equal. apply IH. lia.
Qed.

Lemma lower_length (s : string) :
  String.length (lower s) = String.length s.
Proof.
  induction s as [|c s IH]; simpl; auto.
Qed.

Lemma lower_append (a b : string) :
  lower (a ++ b)%string = (lower a ++ lower b)%string.
Proof.
  induction a as [|c a IH]; simpl; [reflexivity | now rewrite IH].
Qed.

Lemma lower_substring (s : string) :
  forall n m, lower (substring n m s) = substring n m (lower s).
Proof.
  induction s as [|c s IH]; intros [|n] [|m]; simpl; try reflexivity;
    try apply IH.
  now rewrite IH.
Qed.

(** X15. The extension test of [main] accepts exactly the paths that end in
    [.json] written in any mix of upper and lower case; the part before the
    extension is free, and may be empty. *)
Theorem json_extension_in_any_case :
  forall path : string,
    has_json_extension path = true <->
    exists stem ext,
      path = (stem ++ ext)%string /\ lower ext = ".json".
Proof.
  intros path. unfold has_json_extension, endswith. split.
  - intros H. apply andb_prop in H. destruct H as [Hlen Hsub].
    apply Nat.leb_le in Hlen. apply String.eqb_eq in Hsub.
    rewrite lower_length in *.
    set (n := String.length path) in *.
    change (String.length ".json") with 5 in *.
    exists (substring 0 (n - 5) path), (substring (n - 5) (n - (n - 5)) path).
    split.
    + apply substring_split. lia.
    + rewrite lower_substring. replace (n - (n - 5)) with 5 by lia.
      exact Hsub.
  - intros (stem & ext & -> & Hext).
    rewrite lower_append, Hext, string_length_append.
    change (String.length ".json") with 5.
    apply andb_true_intro. split.
    + apply Nat.leb_le. lia.
    + replace (String.length (lower stem) + 5 - 5)
        with (String.length (lower stem)) by lia.
      apply String.eqb_eq.
      apply (substring_after (lower stem) ".json").
Qed.

(** *** process_data once the records are masked *)

Lemma process_data_stages (self : masker) (w : W) (rules items : list json) :
  config self = Some rules ->
  fs_lookup (input_file self) (fs w) = Some (Readable (Parses (VList items))) ->
  process_data self w =
  try_except
    (data <~ run (alloc_all items) ;;
     masked_data <~ mask_data rules data ;;
     run (write_json (output_file self) masked_data) ;;;
     run (log_at INFO (MaskingComplete (output_file self))))
    (fun e =>
       if isinstance e FileNotFoundError then
         run (log_at ERROR (InputNotFound (input_file self)))
       else run (log_at ERROR (ProcessingError e))) w.
Proof.
  intros Hcfg Hfile. unfold process_data. rewrite Hcfg.
  unfold try_except, bind_flow at 1 2, run at 1 2, open_read.
  rewrite Hfile. reflexivity.
Qed.

Lemma process_data_masked (self : masker) (w w1 w2 : W)
      (rules items : list json) (data out : list loc) :
  config self = Some rules ->
  fs_lookup (input_file self) (fs w) = Some (Readable (Parses (VList items))) ->
  alloc_all items w = (Ok data, w1) ->
  mask_data rules data w1 = (Normal (Ok out), w2) ->
  process_data self w =
  match write_json (output_file self) out w2 with
  | (Ok _, w3) =>
      (Normal (Ok tt), add_log w3 (INFO, MaskingComplete (output_file self)))
  | (Raise e, w3) => (Normal (Ok tt), add_log w3 (process_data_entry self e))
  end.
Proof.
  intros Hcfg Hfile Halloc Hmask.
  rewrite (process_data_stages self w rules items Hcfg Hfile).
  unfold try_except, bind_flow, run. rewrite Halloc, Hmask.
  destruct (write_json (output_file self) out w2) as [[[]|e] w3];
    [reflexivity|].
  apply process_data_handler.
Qed.


(** X13. When the records are masked but the output path cannot be opened,
    nothing is written, and the exception goes through the two outer
    handlers: a [FileNotFoundError] (a missing directory) is logged as
    [Input file not found], with the input path, although the input was
    read; any other exception is logged as a processing error. *)
Theorem output_refused_is_logged_by_outer_handlers :
  forall (self : masker) (w w1 w2 : W) (rules items : list json)
         (data out : list loc) (e : exn),
    config self = Some rules ->
    fs_lookup (input_file self) (fs w) = Some (Readable (Parses (VList items))) ->
    alloc_all items w = (Ok data, w1) ->
    mask_data rules data w1 = (Ok out, w2) ->
    fs_lookup (output_file self) (fs w2) = Some (Denied e) ->
    process_data self w =
    (Ok tt,
     add_log w2
       (if isinstance e FileNotFoundError
        then (ERROR, InputNotFound (input_file self))
        else (ERROR, ProcessingError e))).
Proof.
  intros self w w1 w2 rules items data out e Hcfg Hfile Halloc Hmask Hout.
  rewrite (process_data_masked self w w1 w2 rules items data out
             Hcfg Hfile Halloc Hmask).
  unfold write_json. rewrite Hout. reflexivity.
Qed.

(** X18. An exception that does not derive from [Exception], such as the
    [SystemExit] of a call of [exit] in a condition, passes the handlers of
    [mask_data] and of [process_data]: the rules and the records after it
    are not processed, nothing is written, and the program ends with the
    status of the exception. *)
Theorem escape_passes_every_handler :
  forall (rule : json) (text : string) (masked : loc) (w w2 : W) (b : escape),
    condition_text rule text ->
    py_eval text masked w = (Escapes b, w2) ->
    attempt_rule rule masked w = (Escapes b, w2)
    /\ (forall rest, apply_rules (rule :: rest) masked w = (Escapes b, w2))
    /\ (forall pre post record rest acc w0,
           mask_record pre record w0 = (Ok masked, w) ->
           mask_loop (pre ++ rule :: post) (record :: rest) acc w0
           = (Escapes b, w2))
    /\ (forall cfg inp out rules items data w0 w1,
           has_json_extension cfg = true ->
           has_json_extension inp = true ->
           has_json_extension out = true ->
           load_config cfg w0 = (Ok (Some rules), w0) ->
           fs_lookup inp (fs w0) = Some (Readable (Parses (VList items))) ->
           alloc_all items w0 = (Ok data, w1) ->
           mask_data rules data w1 = (Escapes b, w2) ->
           main cfg inp out w0 = (Escapes b, w2)
           /\ forall status,
                b = SystemExit status ->
                exit_status (main cfg inp out w0) = Some status).
Proof.
  intros rule text masked w w2 b Hc He.
  assert (Hstep : attempt_rule rule masked w = (Escapes b, w2)).
  { rewrite (attempt_rule_text _ _ _ _ Hc), He. reflexivity. }
  split; [exact Hstep|]. split; [|split].
  - intros rest. unfold apply_rules. simpl. unfold bind_flow.
    now rewrite Hstep.
  - intros pre post record rest acc w0 Hpre.
    cbn [mask_loop]. unfold bind_flow at 1.
    rewrite (mask_record_cons _ _ _ _ _ _ _ Hpre).
    unfold bind_flow at 1. now rewrite Hstep.
  - intros cfg inp out rules items data w0 w1 Hc1 Hc2 Hc3 Hload Hfile
           Halloc Hmask.
    assert (Hp : main cfg inp out w0 = (Escapes b, w2)).
    { unfold main. unfold has_json_extension in Hc1, Hc2, Hc3.
      rewrite Hc1, Hc2, Hc3. cbn [negb]. cbv beta iota.
      unfold bind_flow at 1, run at 1.
      rewrite (init_loaded _ _ _ _ _ _ Hload).
      rewrite (process_data_stages (mkMasker cfg inp out (Some rules)) w0
                 rules items eq_refl Hfile).
      unfold try_except, bind_flow, run. now rewrite Halloc, Hmask. }
    split; [exact Hp|].
    intros status ->. rewrite Hp. reflexivity.
Qed.

End Engine.

(** ** The concrete evaluator *)







(** ** The theorems on the sample inputs *)










Lemma apply_masking_total_with_sentinels_witness :
  apply_masking nat counting_fake (VStr "zip") two_records
  = (Ok "MASKED", add_log two_records (WARNING, UnknownMaskingType (VStr "zip")))
  /\ apply_masking nat failing_fake (VStr "email") two_records
     = (Ok "MASKED_ERROR",
        add_log (set_gen two_records 1)
          (ERROR, MaskingError (mkExn Exception "provider failure"))).
Proof.
  split.
  - apply (proj1 (proj2 (apply_masking_total_with_sentinels nat counting_fake
                           (VStr "zip") two_records))).
    intros name Hin Heq. injection Heq as <-. simpl in Hin.
    repeat (destruct Hin as [Hin|Hin]; [discriminate Hin|]). exact Hin.
  - apply (proj2 (proj2 (apply_masking_total_with_sentinels nat failing_fake
                           (VStr "email") two_records))
             "email" P_email).
    + unfold category_names. right. left. reflexivity.
    + reflexivity.
    + reflexivity.
    + reflexivity.
Defined.

Lemma load_config_all_or_nothing_witness :
  ~ loadable (fs broken_rules_world) "rules.json"
  /\ exists why,
       load_config nat "rules.json" broken_rules_world
       = (Ok None, add_log broken_rules_world (ERROR, why))
       /\ construct_and_process nat counting_fake cond_eval
            "rules.json" "in.json" "out.json" broken_rules_world
          = (Ok tt, add_log (add_log broken_rules_world (ERROR, why))
                      (ERROR, ConfigLoadFailed))
       /\ fs (after (construct_and_process nat counting_fake cond_eval
                       "rules.json" "in.json" "out.json")
                broken_rules_world) = fs broken_rules_world
       /\ gen (after (construct_and_process nat counting_fake cond_eval
                        "rules.json" "in.json" "out.json")
                 broken_rules_world) = gen broken_rules_world
       /\ heap (after (construct_and_process nat counting_fake cond_eval
                         "rules.json" "in.json" "out.json")
                  broken_rules_world) = heap broken_rules_world.
Proof.
  assert (H : ~ loadable (fs broken_rules_world) "rules.json").
  { intros (v & Hv & _). simpl in Hv. discriminate Hv. }
  split; [exact H|].
  exact (proj1 (load_config_all_or_nothing nat counting_fake cond_eval
                  "rules.json" "in.json" "out.json" broken_rules_world) H).
Defined.







(** ** The scenarios of the specification, run *)

(** One rule masking [email] where [department == 'HR']: record A gets a
    generated email, record B is unchanged, and the two input records are
    still in the store as they were. *)
Example scenario_hr_email :
  mask_data nat counting_fake cond_eval [rule_hr_email] [0; 1] two_records
  = (Normal (Ok [2; 3]),
     mkWorld
       [VDict fields_A; VDict fields_B;
        VDict [("name", VStr "A"); ("department", VStr "HR");
               ("email", VStr "email#"); ("age", VInt 65)];
        VDict fields_B]
       1 [] []).
Proof. reflexivity. Qed.

(** A rule whose condition names a field no record has: both records pass
    through unchanged and each failure is logged. *)
Example scenario_unresolved_reference :
  mask_data nat counting_fake cond_eval [rule_salary] [0; 1] two_records
  = (Normal (Ok [2; 3]),
     mkWorld
       [VDict fields_A; VDict fields_B; VDict fields_A; VDict fields_B]
       0
       [(ERROR, CondNameError (mkExn NameError "name 'salary' is not defined"));
        (ERROR, CondNameError (mkExn NameError "name 'salary' is not defined"))]
       []).
Proof. reflexivity. Qed.

(** A rule whose target field the record does not have: nothing is
    created, a warning is logged. *)
Example scenario_absent_target :
  mask_data nat counting_fake cond_eval [make_rule "True" "phone" "phone_number"]
    [1] two_records
  = (Normal (Ok [2]),
     mkWorld [VDict fields_A; VDict fields_B; VDict fields_B] 0
       [(WARNING, FieldNotFound (VStr "phone"))] []).
Proof. reflexivity. Qed.

(** The second rule's condition holds of a copy of record A as it is
    made, but not of the working copy once the first rule has replaced
    [department]. *)
Example scenario_condition_on_working_copy :
  rule_fires nat cond_eval rule_hr_email 2
    (set_heap two_records (heap two_records ++ [VDict fields_A]))
  = Some ("email", VStr "email")
  /\ object_at nat
       (after (mask_record nat counting_fake cond_eval
                 [rule_always_department; rule_hr_email] 0) two_records) 2
     = Some (VDict [("name", VStr "A"); ("department", VStr "company#");
                    ("email", VStr "a@x.com"); ("age", VInt 65)]).
Proof. split; reflexivity. Qed.

(** A complete run of the program on well-formed files writes the masked
    records and ends with status 0; a path without the extension ends it
    with status 1 before anything is read. *)
Example scenario_program_run :
  let files :=
    [("rules.json", Readable (Parses (VList [rule_hr_email])));
     ("in.json", Readable (Parses (VList [VDict fields_A; VDict fields_B])))] in
  let done := main nat counting_fake cond_eval "rules.json" "in.json" "out.json"
                (mkWorld [] 0 [] files) in
  exit_status nat done = Some 0%Z
  /\ fs_lookup "out.json" (fs (snd done))
     = Some (Readable (Parses (VList
         [VDict [("name", VStr "A"); ("department", VStr "HR");
                 ("email", VStr "email#"); ("age", VInt 65)];
          VDict fields_B])))
  /\ main nat counting_fake cond_eval "rules.json" "in.json" "out.txt"
       (mkWorld [] 0 [] files)
     = (Escapes (SystemExit 1), mkWorld [] 0 [(ERROR, OutputNotJsonFile)] files).
Proof. repeat split. Qed.

(** A rule set whose condition calls [exit(3)]: the program ends with
    status 3 on the first record, and no output is written. *)
Example scenario_exit_in_condition :
  let done := main nat counting_fake cond_eval "exit.json" "in.json" "out.json"
                good_world in
  exit_status nat done = Some 3%Z
  /\ fs_lookup "out.json" (fs (snd done)) = None
  /\ logs (snd done) = [].
Proof. repeat split. Qed.

(** An input record with a nested array is laid out as two objects, and
    written back as the tree it is. *)
Example scenario_nested_record :
  let files :=
    [("rules.json", Readable (Parses (VList [rule_always_name])));
     ("in.json",
      Readable (Parses (VList
        [VDict [("name", VStr "T"); ("tags", VList [VInt 1])]])))] in
  let done := main nat counting_fake cond_eval "rules.json" "in.json" "out.json"
                (mkWorld [] 0 [] files) in
  heap (snd done)
  = [VList [VInt 1]; VDict fields_T;
     VDict [("name", VStr "name#"); ("tags", VRef 0)]]
  /\ fs_lookup "out.json" (fs (snd done))
     = Some (Readable (Parses (VList
         [VDict [("name", VStr "name#"); ("tags", VList [VInt 1])]]))).
Proof. repeat split. Qed.

(** ** The further theorems on the sample inputs *)

Lemma non_string_condition_is_skipped_witness :
  attempt_rule nat counting_fake cond_eval rule_condition_true 0 two_records
  = (Ok tt, add_log two_records (ERROR, CondOrMaskError eval_needs_string)).
Proof.
  apply (non_string_condition_is_skipped nat counting_fake cond_eval
           rule_condition_true (VBool true) 0 two_records fields_A).
  - reflexivity.
  - reflexivity.
  - intros text H. discriminate H.
Defined.

Lemma absent_target_only_warns_witness :
  attempt_rule nat counting_fake cond_eval rule_phone 0 two_records
  = (Ok tt, add_log two_records (WARNING, FieldNotFound (VStr "phone"))).
Proof.
  apply (absent_target_only_warns nat counting_fake cond_eval rule_phone
           "True" 0 two_records two_records fields_A "phone"
           (VStr "phone_number"));
    reflexivity.
Defined.

Lemma unmatched_record_is_copied_verbatim_witness :
  mask_record nat counting_fake cond_eval [rule_hr_email; rule_legal_email] 1
    two_records
  = (Ok 2, set_heap two_records (heap two_records ++ [VDict fields_B])).
Proof.
  apply (unmatched_record_is_copied_verbatim nat counting_fake cond_eval
           [rule_hr_email; rule_legal_email] 1 two_records fields_B).
  - reflexivity.
  - intros rule [<- | [<- | []]]; eexists; split; reflexivity.
Defined.


Lemma load_config_returns_whole_rule_set_witness :
  load_config nat "rules.json" good_world
  = (Ok (Some [rule_hr_email]), good_world).
Proof.
  apply (load_config_returns_whole_rule_set nat "rules.json" good_world
           [rule_hr_email]).
  - reflexivity.
  - constructor; [|constructor].
    eexists. split; [reflexivity|]. repeat split.
Defined.

Lemma load_config_failure_messages_witness :
  load_config nat "absent.json" good_world
  = (Ok None, add_log good_world (ERROR, ConfigNotFound "absent.json"))
  /\ load_config nat "text.json" good_world
     = (Ok None, add_log good_world (ERROR, ConfigInvalidJSON "text.json"))
  /\ load_config nat "object.json" good_world
     = (Ok None, add_log good_world (ERROR, ConfigInvalid not_a_list))
  /\ load_config nat "mixed.json" good_world
     = (Ok None, add_log good_world (ERROR, ConfigInvalid not_a_rule))
  /\ load_config nat "bytes.json" good_world
     = (Ok None, add_log good_world (ERROR, ConfigInvalid not_utf8))
  /\ load_config nat "locked.json" good_world
     = (Ok None, add_log good_world (ERROR, ConfigLoadError no_permission))
  /\ load_config nat "deep.json" good_world
     = (Ok None, add_log good_world (ERROR, ConfigLoadError too_deep)).
Proof.
  split; [|split; [|split; [|split; [|split; [|split]]]]].
  - apply (proj1 (load_config_failure_messages nat "absent.json" good_world)).
    reflexivity.
  - apply (proj1 (proj2 (load_config_failure_messages nat "text.json"
                           good_world))).
    reflexivity.
  - apply (proj1 (proj2 (proj2 (load_config_failure_messages nat
                                  "object.json" good_world)))
             (VDict fields_A)).
    + reflexivity.
    + intros rules H. discriminate H.
  - apply (proj1 (proj2 (proj2 (proj2 (load_config_failure_messages nat
                                         "mixed.json" good_world))))
             [VDict fields_A; VInt 7]).
    + reflexivity.
    + intros H. inversion H as [|? ? _ Hrest]; subst.
      inversion Hrest as [|? ? (kvs & Hkvs & _) _]; subst.
      discriminate Hkvs.
  - apply (proj1 (proj2 (proj2 (proj2 (proj2
             (load_config_failure_messages nat "bytes.json" good_world)))))
             not_utf8); try reflexivity.
    right. reflexivity.
  - apply (proj2 (proj2 (proj2 (proj2 (proj2
             (load_config_failure_messages nat "locked.json" good_world)))))
             no_permission); try reflexivity.
    left. reflexivity.
  - apply (proj2 (proj2 (proj2 (proj2 (proj2
             (load_config_failure_messages nat "deep.json" good_world)))))
             too_deep); try reflexivity.
    right. reflexivity.
Defined.



Lemma process_data_input_failures_witness :
  process_data nat counting_fake cond_eval
    (sample_masker "absent.json" "out.json") good_world
  = (Ok tt, add_log good_world (ERROR, InputNotFound "absent.json"))
  /\ process_data nat counting_fake cond_eval
       (sample_masker "text.json" "out.json") good_world
     = (Ok tt, add_log good_world (ERROR, InputInvalidJSON "text.json"))
  /\ process_data nat counting_fake cond_eval
       (sample_masker "object.json" "out.json") good_world
     = (Ok tt, add_log good_world (ERROR, InputNotList))
  /\ process_data nat counting_fake cond_eval
       (sample_masker "bytes.json" "out.json") good_world
     = (Ok tt, add_log good_world (ERROR, ProcessingError not_utf8)).
Proof.
  split; [|split; [|split]].
  - apply (proj1 (process_data_input_failures nat counting_fake cond_eval
                    (sample_masker "absent.json" "out.json") good_world
                    [rule_hr_email] eq_refl)).
    reflexivity.
  - apply (proj1 (proj2 (process_data_input_failures nat counting_fake
                           cond_eval (sample_masker "text.json" "out.json")
                           good_world [rule_hr_email] eq_refl))).
    reflexivity.
  - apply (proj1 (proj2 (proj2 (process_data_input_failures nat counting_fake
                           cond_eval (sample_masker "object.json" "out.json")
                           good_world [rule_hr_email] eq_refl)))
             (VDict fields_A)).
    + reflexivity.
    + intros items H. discriminate H.
  - apply (proj2 (proj2 (proj2 (process_data_input_failures nat counting_fake
                           cond_eval (sample_masker "bytes.json" "out.json")
                           good_world [rule_hr_email] eq_refl)))
             not_utf8); reflexivity.
Defined.


Lemma output_refused_is_logged_by_outer_handlers_witness :
  process_data nat counting_fake cond_eval
    (sample_masker "in.json" "missing/out.json") good_world
  = (Normal (Ok tt),
     add_log
       (snd (mask_data nat counting_fake cond_eval [rule_hr_email] [0; 1]
               (snd (alloc_all nat [VDict fields_A; VDict fields_B]
                       good_world))))
       (ERROR, InputNotFound "in.json")).
Proof.
  exact (output_refused_is_logged_by_outer_handlers nat counting_fake cond_eval
           (sample_masker "in.json" "missing/out.json") good_world
           (snd (alloc_all nat [VDict fields_A; VDict fields_B] good_world))
           (snd (mask_data nat counting_fake cond_eval [rule_hr_email] [0; 1]
                   (snd (alloc_all nat [VDict fields_A; VDict fields_B]
                           good_world))))
           [rule_hr_email] [VDict fields_A; VDict fields_B] [0; 1] [2; 3]
           (mkExn FileNotFoundError "missing/out.json")
           eq_refl eq_refl eq_refl eq_refl eq_refl).
Defined.

Lemma escape_passes_every_handler_witness :
  condition_text rule_exit "exit(3)"
  /\ attempt_rule nat counting_fake cond_eval rule_exit 2
       (set_heap two_records (heap two_records ++ [VDict fields_A]))
     = (Escapes (SystemExit 3),
        set_heap two_records (heap two_records ++ [VDict fields_A]))
  /\ mask_loop nat counting_fake cond_eval ([] ++ rule_exit :: [rule_hr_email])
       (0 :: [1]) [] two_records
     = (Escapes (SystemExit 3),
        set_heap two_records (heap two_records ++ [VDict fields_A])).
Proof.
  split; [reflexivity|].
  pose proof (escape_passes_every_handler nat counting_fake cond_eval
                rule_exit "exit(3)" 2
                (set_heap two_records (heap two_records ++ [VDict fields_A]))
                (set_heap two_records (heap two_records ++ [VDict fields_A]))
                (SystemExit 3) eq_refl eq_refl) as (Hstep & _ & Hloop & _).
  split; [exact Hstep|].
  apply (Hloop [] [rule_hr_email] 0 [1] [] two_records). reflexivity.
Defined.

Lemma json_extension_in_any_case_witness :
  has_json_extension "Data.JSON" = true.
Proof.
  apply (proj2 (json_extension_in_any_case "Data.JSON")).
  exists "Data", ".JSON". split; reflexivity.
Defined.
